(** * Credential lifecycle and order retrieval of the marketplace backend

    A shallow embedding of [Backend/routes/amazon.js] (token freshness,
    OAuth state) and of the selling-partner service module
    ([getRecentOrders], [getOrderCount], [getRestrictedDataToken],
    [getSellerProfile], [generateMockOrderData]).

    Asynchronous functions are programs over a request signature: every
    [await] on the network, on the timer or on the persistence layer is a
    visible node; the code between two such nodes runs without
    interruption, as on the JavaScript event loop. *)

From Stdlib Require Import ZArith NArith String Ascii List Lia Bool.
From Stdlib Require Import DecimalString DecimalN.
From Stdlib Require Import Sorting.Sorted.
From stdpp Require Import base option gmap strings.

Open Scope string_scope.
Open Scope list_scope.
Open Scope Z_scope.

(** ** JavaScript values used by the services *)

Module Js.

(** [!!s] for a value that is a string or [undefined]/[null]. *)
Definition truthy (o : option string) : bool :=
  match o with
  | Some s => negb (String.eqb s "")
  | None => false
  end.

(** [a || b] on such values. *)
Definition or_else (a : option string) (b : string) : string :=
  match a with
  | Some s => if String.eqb s "" then b else s
  | None => b
  end.

(** A possibly missing string inside a template literal. *)
Definition interpolate (o : option string) : string :=
  match o with
  | Some s => s
  | None => "undefined"
  end.

(** [error.response] of a rejected HTTP call: the status and the two
    places the services read a description from. *)
Record ErrorResponse := {
  status : Z;
  api_message : option string;        (* data.errors[0].message *)
  error_description : option string   (* data.error_description *)
}.

(** A thrown [Error]: plain errors carry no response. *)
Record Error := {
  message : string;
  response : option ErrorResponse
}.

Definition new_Error (msg : string) : Error :=
  {| message := msg; response := None |}.

(** [error.response?.status === n] *)
Definition status_is (e : Error) (n : Z) : bool :=
  match response e with
  | Some r => status r =? n
  | None => false
  end.

(** A settled promise of an HTTP client call. *)
Inductive Http (A : Type) : Type :=
| Resolved (data : A)
| Rejected (e : Error).
Arguments Resolved {A} data.
Arguments Rejected {A} e.

(** [new Date(ms)] is invalid outside the time-value range. *)
Definition max_time_value : Z := 8640000000000000.

Definition new_Date (ms : Z) : option Z :=
  if (Z.abs ms <=? max_time_value) then Some ms else None.

Definition lower_ascii (c : ascii) : ascii :=
  let n := N_of_ascii c in
  if ((65 <=? n) && (n <=? 90))%N then ascii_of_N (n + 32) else c.

Fixpoint toLowerCase (s : string) : string :=
  match s with
  | EmptyString => EmptyString
  | String c r => String (lower_ascii c) (toLowerCase r)
  end.

Definition upper_ascii (c : ascii) : ascii :=
  let n := N_of_ascii c in
  if ((97 <=? n) && (n <=? 122))%N then ascii_of_N (n - 32) else c.

(** [toUpperCase()] of a text of ASCII characters, as numbers print. *)
Fixpoint toUpperCase (s : string) : string :=
  match s with
  | EmptyString => EmptyString
  | String c r => String (upper_ascii c) (toUpperCase r)
  end.

End Js.

(** ** Bounded checks *)

(** [f] holds of 0, 1, ..., n - 1. *)
Definition all_below (f : Z -> bool) (n : N) : bool :=
  fst (N.iter n (fun '(ok, i) => (ok && f i, i + 1)) (true, 0)).

(** ** Numbers and dates as the platform prints and reads them *)

Module JsNum.

(** [String(n)] for a non-negative integer. *)
Definition decimal (n : Z) : string :=
  NilEmpty.string_of_uint (N.to_uint (Z.to_N n)).

(** [padStart(w, "0")] of the decimal digits. *)
Fixpoint zeros (k : nat) : string :=
  match k with
  | O => ""
  | S k' => String "0" (zeros k')
  end.

Definition pad (w : nat) (n : Z) : string :=
  let s := decimal n in
  zeros (w - String.length s) +:+ s.

(** The value [Math.random()] returns is [k / 2^53] for the integer
    [k] the generator drew, [0 <= k < 2^53]. *)
Definition random_scale : Z := 2 ^ 53.

(** The integer [m >= 0] rounded to the 53 significant bits of a
    double, to nearest with ties to even. A product or sum of doubles
    whose exact value is [m / 2^53] is the double [round53 m / 2^53]. *)
Definition round53 (m : Z) : Z :=
  let shift := Z.log2 m - 52 in
  if shift <=? 0 then m
  else
    let unit := 2 ^ shift in
    let q := m / unit in
    let r := m mod unit in
    let up := (unit <? 2 * r) || ((unit =? 2 * r) && Z.odd q) in
    (if up then q + 1 else q) * unit.

(** [Math.floor(Math.random() * n)]: the floor of the rounded
    product. *)
Definition floor_times (k n : Z) : Z := round53 (k * n) / random_scale.

(** [(Math.random() * 5000 + 100).toFixed(2)]: the rounded product,
    the rounded sum, then the hundredths nearest to that double, the
    larger of two equally near. *)
Definition amount_hundredths (k : Z) : Z :=
  let product := round53 (k * 5000) in
  let sum := round53 (product + 100 * random_scale) in
  (200 * sum + random_scale) / (2 * random_scale).

Definition toFixed2 (hundredths : Z) : string :=
  decimal (hundredths / 100) +:+ "." +:+ pad 2 (hundredths mod 100).

End JsNum.

Module JsDate.

Definition ms_per_day : Z := 86400000.

(** Calendar arithmetic on the proleptic Gregorian calendar, in eras of
    400 years that start on the first of March. *)
Definition days_per_era : Z := 146097.

(** Day of the era to the year within the era (January and February
    already counted to the next year), month and day. *)
Definition era_fields (doe : Z) : Z * Z * Z :=
  let yoe := (doe - doe / 1460 + doe / 36524 - doe / 146096) / 365 in
  let doy := doe - (365 * yoe + yoe / 4 - yoe / 100) in
  let mp := (5 * doy + 2) / 153 in
  let d := doy - (153 * mp + 2) / 5 + 1 in
  let m := if mp <? 10 then mp + 3 else mp - 9 in
  (yoe + (if m <=? 2 then 1 else 0), m, d).

Definition era_day (yoe m d : Z) : Z :=
  let mp := if m <=? 2 then m + 9 else m - 3 in
  let doy := (153 * mp + 2) / 5 + d - 1 in
  yoe * 365 + yoe / 4 - yoe / 100 + doy.

(** Day number (days since 1970-01-01, UTC) to year, month, day. *)
Definition civil_from_days (z0 : Z) : Z * Z * Z :=
  let z := z0 + 719468 in
  let '(y, m, d) := era_fields (z mod days_per_era) in
  (y + (z / days_per_era) * 400, m, d).

Definition days_from_civil (y0 m d : Z) : Z :=
  let y := if m <=? 2 then y0 - 1 else y0 in
  (y / 400) * days_per_era + era_day (y mod 400) m d - 719468.

(** [DateFromTime(t)]: the day of the month. *)
Definition DateFromTime (t : Z) : Z :=
  let '(_, _, d) := civil_from_days (t / ms_per_day) in d.

(** [MakeDate(MakeDay(YearFromTime(t), MonthFromTime(t), dt),
    TimeWithinDay(t))]: the time [t] with its day of the month set to
    [dt], which may lie outside the month. *)
Definition with_date (t dt : Z) : Z :=
  let '(y, m, _) := civil_from_days (t / ms_per_day) in
  (days_from_civil y m 1 + dt - 1) * ms_per_day + t mod ms_per_day.

Definition year_string (y : Z) : string :=
  if (0 <=? y) && (y <=? 9999) then JsNum.pad 4 y
  else (if y <? 0 then "-" else "+") +:+ JsNum.pad 6 (Z.abs y).

(** [date.toISOString().split("T")[0]] *)
Definition toISODate (t : Z) : string :=
  let '(y, m, d) := civil_from_days (t / ms_per_day) in
  year_string y +:+ "-" +:+ JsNum.pad 2 m +:+ "-" +:+ JsNum.pad 2 d.

Definition digit_value (c : ascii) : option Z :=
  let n := N_of_ascii c in
  if ((48 <=? n) && (n <=? 57))%N then Some (Z.of_N n - 48) else None.

(** Value of a run of decimal digits. *)
Fixpoint digits_value (acc : Z) (s : string) : option Z :=
  match s with
  | EmptyString => Some acc
  | String c r =>
      match digit_value c with
      | Some v => digits_value (acc * 10 + v) r
      | None => None
      end
  end.

(** The first [n] characters of a string, and what follows them. *)
Fixpoint split_at (n : nat) (s : string) : string * string :=
  match n, s with
  | S n', String c r => let '(a, b) := split_at n' r in (String c a, b)
  | _, _ => (EmptyString, s)
  end.

(** The date-only text with a year of [width] digits, the year taken
    with the given sign, read as midnight UTC. *)
Definition date_only (width : nat) (sign : Z) (s : string) : option Z :=
  let '(ys, r1) := split_at width s in
  match r1 with
  | String "-" r2 =>
      let '(ms, r3) := split_at 2 r2 in
      match r3 with
      | String "-" ds =>
          if (String.length ds =? 2)%nat then
            match digits_value 0 ys, digits_value 0 ms, digits_value 0 ds with
            | Some y, Some m, Some d =>
                if (1 <=? m) && (m <=? 12) && (1 <=? d) && (d <=? 31)
                then Some (days_from_civil (sign * y) m d * ms_per_day)
                else None
            | _, _, _ => None
            end
          else None
      | _ => None
      end
  | _ => None
  end.

(** [new Date(s).getTime()] for the date-only forms [YYYY-MM-DD] and,
    with a sign and six digits, [+YYYYYY-MM-DD], which are the forms
    [toISOString] prints; [None] is the time value of an invalid Date.
    The year [-000000] is not a year. *)
Definition parse (s : string) : option Z :=
  match s with
  | String "+" r => date_only 6 1 r
  | String "-" r =>
      if String.prefix "000000" r then None else date_only 6 (-1) r
  | _ => date_only 4 1 s
  end.

(** [new Date(b) - new Date(a)] as a sort comparator result: a
    comparator value that is not a number counts as zero. *)
Definition minus (b a : string) : Z :=
  match parse b, parse a with
  | Some tb, Some ta => tb - ta
  | _, _ => 0
  end.

(** The instants whose calendar dates, up to 29 days back, are printed
    with a four-digit year: 1970-01-30 to 9999-12-31. *)
Definition four_digit_era (t : Z) : Prop :=
  29 * ms_per_day <= t < 253402300800000.

(** Checks used to validate the calendar arithmetic day by day and the
    digit printer number by number. *)
Definition era_check (doe : Z) : bool :=
  let '(y, m, d) := era_fields doe in
  let yoe := if m <=? 2 then y - 1 else y in
  (0 <=? yoe) && (yoe <? 400) && (1 <=? m) && (m <=? 12)
  && (1 <=? d) && (d <=? 31) && (era_day yoe m d =? doe)
  && ((146037 <=? doe) || (y <=? 399)).

Definition pad_check (w : nat) (n : Z) : bool :=
  (String.length (JsNum.pad w n) =? w)%nat
  && match digits_value 0 (JsNum.pad w n) with
     | Some v => v =? n
     | None => false
     end.

End JsDate.

(** [Array.prototype.sort(compare)]: stable; an element moves behind
    another only where the comparator is positive. *)
Section ArraySort.
Context {A : Type} (compare : A -> A -> Z).

Fixpoint sort_insert (x : A) (l : list A) : list A :=
  match l with
  | [] => [x]
  | y :: l' => if compare x y <=? 0 then x :: y :: l' else y :: sort_insert x l'
  end.

Definition array_sort (l : list A) : list A :=
  foldr sort_insert [] l.
End ArraySort.

(** Order of a list whose keys never increase. *)
Definition descending {A : Type} (key : A -> Z) (a b : A) : Prop :=
  key b <= key a.

(** ** Data of the credential store and of the upstream API *)

Record AmazonAuth := {
  accessToken : option string;
  refreshToken : option string;
  tokenExpiresAt : option Z;      (* a Date, in ms; [None] is an invalid Date *)
  sellerId : option string;
  connectedAt : option Z
}.

Record User := {
  user_id : string;
  amazonAuth : option AmazonAuth
}.

(** [response.data] of the token endpoint. *)
Record TokenData := {
  access_token : option string;
  refresh_token : option string;
  expires_in : option Z
}.

Record Money := {
  CurrencyCode : option string;
  Amount : option string
}.

(** An element of [payload.Orders]. *)
Record UpstreamOrder := {
  AmazonOrderId : option string;
  PurchaseDate : option string;
  OrderStatus : option string;
  OrderTotal : option Money
}.

Record OrdersPayload := {
  Orders : option (list UpstreamOrder);
  NextToken : option string
}.

(** The public order shape returned to the dashboard. *)
Record OrderRecord := {
  orderId : option string;
  orderDate : string;
  status : option string;
  amount : string
}.

Record Config := {
  clientId : option string;
  clientSecret : option string;
  redirectUri : option string;
  region : string;
  sandbox : bool;
  applicationId : option string
}.


(** ** Requests and programs *)

Record Headers := {
  Authorization : string;
  x_amz_access_token : option string
}.

Record OrdersParams := {
  MarketplaceIds : string;
  CreatedAfter : Z;
  CreatedBefore : option Z;
  MaxResultsPerPage : Z;
  NextTokenParam : option string
}.

Inductive Grant :=
| AuthorizationCode (code : string) (redirect_uri : string)
| RefreshTokenGrant (refresh_token : string).

(** The form posted to the token endpoint. *)
Record TokenForm := {
  grant : Grant;
  client_id : string;
  client_secret : string
}.

(** What the code asks of the world around it. The last two are
    answered by the host platform, the same whatever was requested
    before: [LocalTZA t isUTC] is the offset of local time from UTC in
    ms, at the UTC time [t] or at the local time [t];
    [NumberToString36 k] is [(k / 2^53).toString(36)], whose digits the
    language leaves to the implementation. *)
Inductive Req :=
| GetOrders (url : string) (h : Headers) (p : OrdersParams)
| PostToken (form : TokenForm)
| PostRestrictedDataToken (url : string) (h : Headers)
| GetMarketplaceParticipations (url : string) (h : Headers)
| SetTimeout (ms : Z)
| Save (doc : nat)
| MathRandom
| DateNow
| ReadDoc (doc : nat)
| WriteDoc (doc : nat) (u : User)
| LocalTZA (t : Z) (isUTC : bool)
| NumberToString36 (k : Z).

(** What each request hands back to the code that issued it. *)
Definition Ans (q : Req) : Type :=
  match q with
  | GetOrders _ _ _ => Js.Http (option OrdersPayload)
  | PostToken _ => Js.Http TokenData
  | PostRestrictedDataToken _ _ => Js.Http (option string)
  | GetMarketplaceParticipations _ _ => Js.Http (option nat)
  | SetTimeout _ => unit
  | Save _ => option Js.Error
  | MathRandom => Z
  | DateNow => Z
  | ReadDoc _ => option User
  | WriteDoc _ _ => unit
  | LocalTZA _ _ => Z
  | NumberToString36 _ => string
  end.

(** The requests at which an async function is suspended. *)
Definition is_await (q : Req) : bool :=
  match q with
  | GetOrders _ _ _ | PostToken _ | PostRestrictedDataToken _ _
  | GetMarketplaceParticipations _ _ | SetTimeout _ | Save _ => true
  | MathRandom | DateNow | ReadDoc _ | WriteDoc _ _
  | LocalTZA _ _ | NumberToString36 _ => false
  end.

(** Requests answered from outside the process. *)
Definition is_external (q : Req) : bool :=
  match q with
  | DateNow | ReadDoc _ | WriteDoc _ _
  | LocalTZA _ _ | NumberToString36 _ => false
  | _ => true
  end.

Inductive Prog (R : Type) : Type :=
| Ret (r : R)
| Throw (e : Js.Error)
| Spin
| Vis (q : Req) (k : Ans q -> Prog R).
Arguments Ret {R} r.
Arguments Throw {R} e.
Arguments Spin {R}.
Arguments Vis {R} q k.

Fixpoint bind {A B} (p : Prog A) (f : A -> Prog B) : Prog B :=
  match p with
  | Ret a => f a
  | Throw e => Throw e
  | Spin => Spin
  | Vis q k => Vis q (fun a => bind (k a) f)
  end.

(** [try { p } catch (error) { h error }] *)
Fixpoint try_catch {A} (p : Prog A) (h : Js.Error -> Prog A) : Prog A :=
  match p with
  | Ret a => Ret a
  | Throw e => h e
  | Spin => Spin
  | Vis q k => Vis q (fun a => try_catch (k a) h)
  end.

Definition call (q : Req) : Prog (Ans q) := Vis q Ret.

(** [await] of an HTTP client promise: a rejection is thrown. *)
Definition await {A} (q : Req) (unwrap : Ans q -> Js.Http A) : Prog A :=
  Vis q (fun a => match unwrap a with
                  | Js.Resolved d => Ret d
                  | Js.Rejected e => Throw e
                  end).

Declare Scope prog_scope.
Delimit Scope prog_scope with prog.
Notation "x <- p ;; q" := (bind p (fun x => q))
  (at level 100, p at next level, right associativity) : prog_scope.
Notation "p ;;; q" := (bind p (fun _ => q))
  (at level 100, right associativity) : prog_scope.
Open Scope prog_scope.

(** ** The world a program runs in *)

(** What went wrong with a request, if anything did. *)
Definition failure_of (q : Req) : Ans q -> option Js.Error :=
  match q as q0 return Ans q0 -> option Js.Error with
  | GetOrders _ _ _ | PostToken _ | PostRestrictedDataToken _ _
  | GetMarketplaceParticipations _ _ =>
      fun a => match a with Js.Rejected e => Some e | Js.Resolved _ => None end
  | Save _ => fun a => a
  | _ => fun _ => None
  end.

(** A request that left the process, with its failure. *)
Record Entry := {
  request : Req;
  failure : option Js.Error
}.

Record World := {
  clock : Z;                        (* ms since the epoch *)
  docs : gmap nat User;             (* loaded user documents, by reference *)
  db : gmap string User;            (* persisted users, by id *)
  log : list Entry                  (* external requests issued, oldest first *)
}.

(** The outside: how each external request is answered after a given
    history, and how long the awaited ones take. *)
Record Env := {
  reply : list Entry -> forall q : Req, Ans q;
  elapsed : list Entry -> Req -> Z
}.

Definition persist (doc : nat) (w : World) : gmap string User :=
  match docs w !! doc with
  | Some u => <[user_id u := u]> (db w)
  | None => db w
  end.

Definition logged (q : Req) (a : Ans q) (w : World) : list Entry :=
  (log w ++ [ {| request := q; failure := failure_of q a |} ])%list.

Definition perform (env : Env) (q : Req) (w : World) : Ans q * World :=
  match q as q0 return (Ans q0 -> Ans q0 * World) with
  | DateNow => fun _ => (clock w, w)
  | ReadDoc d => fun _ => (docs w !! d, w)
  | WriteDoc d u => fun _ =>
      (tt, {| clock := clock w; docs := <[d := u]> (docs w);
              db := db w; log := log w |})
  | LocalTZA t isUTC => fun _ => (reply env [] (LocalTZA t isUTC), w)
  | NumberToString36 k => fun _ => (reply env [] (NumberToString36 k), w)
  | MathRandom => fun a =>
      (a mod JsNum.random_scale,
       {| clock := clock w; docs := docs w; db := db w;
          log := logged MathRandom a w |})
  | Save d => fun a =>
      (a, {| clock := clock w + elapsed env (log w) (Save d);
             docs := docs w;
             db := match a with None => persist d w | Some _ => db w end;
             log := logged (Save d) a w |})
  | q0 => fun a =>
      (a, {| clock := clock w + elapsed env (log w) q0;
             docs := docs w; db := db w; log := logged q0 a w |})
  end (reply env (log w) q).

(** The world after [dt] ms in which the requests [extra] went out. *)
Definition after (w : World) (dt : Z) (extra : list Entry) : World :=
  {| clock := clock w + dt; docs := docs w; db := db w;
     log := log w ++ extra |}.

Inductive Outcome (R : Type) : Type :=
| Returned (r : R)
| Thrown (e : Js.Error)
| Diverged.
Arguments Returned {R} r.
Arguments Thrown {R} e.
Arguments Diverged {R}.

Fixpoint run {R} (env : Env) (p : Prog R) (w : World) : Outcome R * World :=
  match p with
  | Ret r => (Returned r, w)
  | Throw e => (Thrown e, w)
  | Spin => (Diverged, w)
  | Vis q k => let '(a, w') := perform env q w in run env (k a) w'
  end.

(** ** The selling-partner service module *)

Module SpApi.

Definition MARKETPLACE_US : string := "ATVPDKIKX0DER".
Definition MARKETPLACE_IN : string := "A21TJRUUN4KGV".
Definition MARKETPLACE_JP : string := "A1VC38T7YXB528".

Definition statuses : list string :=
  ["Shipped"; "Pending"; "Delivered"; "Cancelled"].

Definition bearer (accessToken : option string) : string :=
  "Bearer " +:+ Js.interpolate accessToken.

(** [restrictedToken || accessToken] *)
Definition token_or (restrictedToken accessToken : option string)
  : option string :=
  if Js.truthy restrictedToken then restrictedToken else accessToken.

(** [payload.NextToken || null] *)
Definition or_null (o : option string) : option string :=
  if Js.truthy o then o else None.

(** [s.split("T")[0]] *)
Fixpoint before_T (s : string) : string :=
  match s with
  | EmptyString => EmptyString
  | String c r => if Ascii.eqb c "T" then EmptyString else String c (before_T r)
  end.

Fixpoint join (sep : string) (l : list string) : string :=
  match l with
  | [] => ""
  | [x] => x
  | x :: r => x +:+ sep +:+ join sep r
  end.

(** The callback of [allOrders.map] in [getRecentOrders]. *)
Definition formatOrder (order : UpstreamOrder) : OrderRecord :=
  {| orderId := AmazonOrderId order;
     orderDate :=
       if Js.truthy (PurchaseDate order)
       then before_T (Js.interpolate (PurchaseDate order))
       else "N/A";
     status := Some (Js.or_else (OrderStatus order) "Unknown");
     amount :=
       match OrderTotal order with
       | Some total =>
           Js.interpolate (CurrencyCode total) +:+ " "
             +:+ Js.interpolate (Amount total)
       | None => "N/A"
       end |}.

(** [(a, b) => new Date(b.orderDate) - new Date(a.orderDate)] *)
Definition by_date_desc (a b : OrderRecord) : Z :=
  JsDate.minus (orderDate b) (orderDate a).

(** The time value the comparator reads from a record. *)
Definition date_key (o : OrderRecord) : Z :=
  default 0 (JsDate.parse (orderDate o)).

Definition RangeError : Js.Error := Js.new_Error "Invalid time value".

(** [date.setDate(date.getDate() - back)] on a date holding the time
    value [t]: the local time is moved to the same time of day [back]
    calendar days earlier and read back as UTC; the result is the new
    time value, [None] outside the range of time values. *)
Definition setDate_back (t back : Z) : Prog (option Z) :=
  offset <- call (LocalTZA t true) ;;
  let local := t + offset in
  let newDate := JsDate.with_date local (JsDate.DateFromTime local - back) in
  offset' <- call (LocalTZA newDate false) ;;
  Ret (Js.new_Date (newDate - offset')).

(** Body of the [for] loop of [generateMockOrderData]; the bound is
    drawn anew at every test of the loop condition, and the fields of a
    record are computed in the order they are written. *)
Fixpoint mock_loop (fuel : nat) (i : Z) (mockOrders : list OrderRecord)
  : Prog (list OrderRecord) :=
  match fuel with
  | O => Spin
  | S fuel' =>
      bound <- call MathRandom ;;
      if i <? JsNum.floor_times bound 20 + 5 then
        now <- call DateNow ;;
        back <- call MathRandom ;;
        date <- setDate_back now (JsNum.floor_times back 30) ;;
        rid <- call MathRandom ;;
        digits <- call (NumberToString36 rid) ;;
        match date with
        | None => Throw RangeError          (* toISOString of an invalid date *)
        | Some t =>
            rst <- call MathRandom ;;
            ram <- call MathRandom ;;
            mock_loop fuel' (i + 1)
              (mockOrders ++
                 [ {| orderId :=
                        Some ("TEST-" +:+ Js.toUpperCase (substring 2 9 digits));
                      orderDate := JsDate.toISODate t;
                      status := statuses !! Z.to_nat (JsNum.floor_times rst 4);
                      amount :=
                        "INR " +:+ JsNum.toFixed2 (JsNum.amount_hundredths ram)
                   |} ])
        end
      else Ret mockOrders
  end.


(** A record as the generator makes them at time [now] on a host that
    keeps one offset from UTC: dated a whole number of days back. *)
Definition synthetic (now : Z) (o : OrderRecord) : Prop :=
  (exists s, status o = Some s /\ In s statuses)
  /\ exists back, 0 <= back < 30
       /\ orderDate o = JsDate.toISODate (now - back * JsDate.ms_per_day).

(** A record whose status is one of the generator's. *)
Definition has_status (o : OrderRecord) : Prop :=
  exists s, status o = Some s /\ In s statuses.

(** The error [getRecentOrders] raises when access is denied for good. *)
Definition permission_error : Js.Error :=
  Js.new_Error
    "Your Amazon SP API application doesn't have permission to access Orders. Please ensure your application is approved and has the 'Orders' role assigned.".

Definition generateMockOrderData : Prog (list OrderRecord) :=
  mockOrders <- mock_loop 25 0 [] ;;
  Ret (array_sort by_date_desc mockOrders).

Section WithConfig.
Variable config : Config.

Definition getMarketplaceId : string :=
  let region := Js.toLowerCase (region config) in
  if String.eqb region "na" then MARKETPLACE_US
  else if String.eqb region "eu" then MARKETPLACE_IN
  else if String.eqb region "fe" then MARKETPLACE_JP
  else MARKETPLACE_IN.

Definition missing_keys : list string :=
  (if Js.truthy (clientId config) then [] else ["clientId"]) ++
  (if Js.truthy (clientSecret config) then [] else ["clientSecret"]) ++
  (if Js.truthy (redirectUri config) then [] else ["redirectUri"]) ++
  (if Js.truthy (applicationId config) then [] else ["applicationId"]).

Definition validateConfig : Prog unit :=
  match missing_keys with
  | [] => Ret tt
  | missing =>
      Throw (Js.new_Error
               ("Missing required Amazon SP API configuration: "
                  +:+ join ", " missing))
  end.

Definition getBaseUrl : Prog string :=
  let region := Js.toLowerCase (region config) in
  let host :=
    if String.eqb region "na" then Some "sellingpartnerapi-na.amazon.com"
    else if String.eqb region "eu" then Some "sellingpartnerapi-eu.amazon.com"
    else if String.eqb region "fe" then Some "sellingpartnerapi-fe.amazon.com"
    else None in
  match host with
  | Some h =>
      Ret ((if sandbox config then "https://sandbox." else "https://") +:+ h)
  | None =>
      Throw (Js.new_Error
               ("Invalid region: " +:+ region +:+ ". Must be one of: na, eu, fe"))
  end.

Definition plain_headers (accessToken : option string) : Headers :=
  {| Authorization := bearer accessToken;
     x_amz_access_token := accessToken |}.

Definition checkOrdersApiAccess (accessToken : option string) : Prog bool :=
  try_catch
    (base <- getBaseUrl ;;
     now <- call DateNow ;;
     _ <- await (GetOrders (base +:+ "/orders/v0/orders")
                   (plain_headers accessToken)
                   {| MarketplaceIds := getMarketplaceId;
                      CreatedAfter := now - 24 * 60 * 60 * 1000;
                      CreatedBefore := None;
                      MaxResultsPerPage := 1;
                      NextTokenParam := None |}) id ;;
     Ret true)
    (fun _ => Ret false).

Definition refreshAccessToken (refreshToken : option string)
  : Prog TokenData :=
  try_catch
    (validateConfig ;;;
     if negb (Js.truthy refreshToken)
     then Throw (Js.new_Error "Refresh token is required")
     else await (PostToken
                   {| grant := RefreshTokenGrant (Js.interpolate refreshToken);
                      client_id := Js.interpolate (clientId config);
                      client_secret := Js.interpolate (clientSecret config) |})
                id)
    (fun error =>
       Throw (Js.new_Error
                ("Failed to refresh access token: "
                   +:+ Js.or_else (Js.response error ≫= Js.error_description)
                                  (Js.message error)))).

Definition exchangeCode (code : string) : Prog TokenData :=
  try_catch
    (validateConfig ;;;
     await (PostToken
              {| grant := AuthorizationCode code
                            (Js.interpolate (redirectUri config));
                 client_id := Js.interpolate (clientId config);
                 client_secret := Js.interpolate (clientSecret config) |})
           id)
    (fun error =>
       Throw (Js.new_Error
                ("Failed to exchange authorization code: "
                   +:+ Js.or_else (Js.response error ≫= Js.error_description)
                                  (Js.message error)))).

Definition getRestrictedDataToken (accessToken : option string)
  : Prog (option string) :=
  try_catch
    (if negb (Js.truthy accessToken)
     then Throw (Js.new_Error "Access token is required")
     else
       baseUrl <- getBaseUrl ;;
       await (PostRestrictedDataToken
                (baseUrl +:+ "/tokens/2021-03-01/restrictedDataToken")
                (plain_headers accessToken)) id)
    (fun _ => Ret None).

(** The result object [{ marketplaces, hasAccess }]. *)
Definition getSellerProfile (accessToken : option string)
  : Prog (nat * bool) :=
  try_catch
    (base <- getBaseUrl ;;
     payload <- await (GetMarketplaceParticipations
                         (base +:+ "/sellers/v1/marketplaceParticipations")
                         (plain_headers accessToken)) id ;;
     Ret (default 0%nat payload, true))
    (fun _ => Ret (0%nat, false)).

Definition classify (what : string) (error : Js.Error) : Js.Error :=
  if Js.status_is error 401
  then Js.new_Error "Authentication failed. Please reconnect your Amazon account."
  else if Js.status_is error 429
  then Js.new_Error "Rate limit exceeded. Please try again later."
  else Js.new_Error
         (what +:+ Js.or_else (Js.response error ≫= Js.api_message)
                              (Js.message error)).

Definition orders_headers (accessToken restrictedToken : option string)
  : Headers :=
  {| Authorization := bearer accessToken;
     x_amz_access_token := token_or restrictedToken accessToken |}.

(** The [try] block of [getOrderCount]. *)
Definition order_count_body (accessToken : option string) : Prog nat :=
  if negb (Js.truthy accessToken)
  then Throw (Js.new_Error "Access token is required")
  else
    hasOrdersAccess <- checkOrdersApiAccess accessToken ;;
    if negb hasOrdersAccess then
      mockOrders <- generateMockOrderData ;;
      Ret (length mockOrders)
    else
      restrictedToken <- getRestrictedDataToken accessToken ;;
      now <- call DateNow ;;
      base <- getBaseUrl ;;
      payload <- await (GetOrders (base +:+ "/orders/v0/orders")
                          (orders_headers accessToken restrictedToken)
                          {| MarketplaceIds := getMarketplaceId;
                             CreatedAfter := now - 30 * JsDate.ms_per_day;
                             CreatedBefore := Some now;
                             MaxResultsPerPage := 100;
                             NextTokenParam := None |}) id ;;
      let orders := default [] (payload ≫= Orders) in
      Ret (length orders).

(** Its [catch] block. *)
Definition order_count_catch (accessToken : option string)
    (error : Js.Error) : Prog nat :=
  if Js.status_is error 403 then
    profile <- getSellerProfile accessToken ;;
    if snd profile then
      mockOrders <- generateMockOrderData ;;
      Ret (length mockOrders)
    else
      Throw (Js.new_Error
               "Your Amazon SP API application doesn't have permission to access Orders. Please ensure your application is approved and has the 'Orders' role assigned in Amazon Developer Console.")
  else Throw (classify "Failed to get order count: " error).

Definition getOrderCount (accessToken sellerId : option string) : Prog nat :=
  try_catch (order_count_body accessToken)
            (order_count_catch accessToken).

(** The [do ... while] loop of [getRecentOrders]. *)
Fixpoint fetch_pages (fuel : nat) (accessToken restrictedToken : option string)
    (createdAfter createdBefore : Z)
    (allOrders : list UpstreamOrder) (nextToken : option string)
  : Prog (list UpstreamOrder) :=
  match fuel with
  | O => Spin
  | S fuel' =>
      let headers := orders_headers accessToken restrictedToken in
      let params :=
        {| MarketplaceIds := getMarketplaceId;
           CreatedAfter := createdAfter;
           CreatedBefore := Some createdBefore;
           MaxResultsPerPage := 50;
           NextTokenParam := nextToken |} in
      base <- getBaseUrl ;;
      payload <- await (GetOrders (base +:+ "/orders/v0/orders") headers params) id ;;
      match payload ≫= Orders with
      | None | Some [] => Ret allOrders
      | Some (o :: os) =>
          let orders := o :: os in
          let allOrders' := (allOrders ++ orders)%list in
          let nextToken' := or_null (payload ≫= NextToken) in
          (if Js.truthy nextToken' then call (SetTimeout 100) else Ret tt) ;;;
          if Js.truthy nextToken' && (length allOrders' <? 200)%nat
          then fetch_pages fuel' accessToken restrictedToken
                 createdAfter createdBefore allOrders' nextToken'
          else Ret allOrders'
      end
  end.

(** The [try] block of [getRecentOrders]. *)
Definition recent_orders_body (accessToken : option string)
  : Prog (list OrderRecord) :=
  if negb (Js.truthy accessToken)
  then Throw (Js.new_Error "Access token is required")
  else
    hasOrdersAccess <- checkOrdersApiAccess accessToken ;;
    if negb hasOrdersAccess then generateMockOrderData
    else
      now <- call DateNow ;;
      restrictedToken <- getRestrictedDataToken accessToken ;;
      allOrders <- fetch_pages 200 accessToken restrictedToken
                     (now - 30 * JsDate.ms_per_day) now [] None ;;
      Ret (map formatOrder allOrders).

(** Its [catch] block. *)
Definition recent_orders_catch (accessToken : option string)
    (error : Js.Error) : Prog (list OrderRecord) :=
  if Js.status_is error 403 then
    profile <- getSellerProfile accessToken ;;
    if snd profile then generateMockOrderData
    else Throw permission_error
  else Throw (classify "Failed to get recent orders: " error).

Definition getRecentOrders (accessToken sellerId : option string)
  : Prog (list OrderRecord) :=
  try_catch (recent_orders_body accessToken)
            (recent_orders_catch accessToken).


End WithConfig.

End SpApi.

(** ** The route helpers of [routes/amazon.js] *)

Module Routes.

Definition bufferTime : Z := 5 * 60 * 1000.

Definition with_accessToken (v : option string) (a : AmazonAuth) : AmazonAuth :=
  {| accessToken := v; refreshToken := refreshToken a;
     tokenExpiresAt := tokenExpiresAt a; sellerId := sellerId a;
     connectedAt := connectedAt a |}.

Definition with_tokenExpiresAt (v : option Z) (a : AmazonAuth) : AmazonAuth :=
  {| accessToken := accessToken a; refreshToken := refreshToken a;
     tokenExpiresAt := v; sellerId := sellerId a;
     connectedAt := connectedAt a |}.

Definition with_refreshToken (v : option string) (a : AmazonAuth) : AmazonAuth :=
  {| accessToken := accessToken a; refreshToken := v;
     tokenExpiresAt := tokenExpiresAt a; sellerId := sellerId a;
     connectedAt := connectedAt a |}.

Definition TypeError : Js.Error :=
  Js.new_Error "Cannot read properties of undefined".

(** [user.amazonAuth] of a loaded document. *)
Definition read_auth (user : nat) : Prog (option AmazonAuth) :=
  u <- call (ReadDoc user) ;;
  Ret (u ≫= amazonAuth).

(** [user.amazonAuth.field = value] *)
Definition assign (user : nat) (f : AmazonAuth -> AmazonAuth) : Prog unit :=
  u <- call (ReadDoc user) ;;
  match u with
  | Some doc =>
      match amazonAuth doc with
      | Some a =>
          call (WriteDoc user {| user_id := user_id doc; amazonAuth := Some (f a) |})
      | None => Throw TypeError
      end
  | None => Throw TypeError
  end.

(** [await user.save()] *)
Definition save (user : nat) : Prog unit :=
  r <- call (Save user) ;;
  match r with
  | Some e => Throw e
  | None => Ret tt
  end.

(** [now.getTime() > expiryTime.getTime() - bufferTime]; a comparison
    with the time value of an invalid Date is false. *)
Definition expiring (now : Z) (expiryTime : option Z) : bool :=
  match expiryTime with
  | Some t => now >? t - bufferTime
  | None => false
  end.

Section WithConfig.
Variable config : Config.

Definition ensureValidAccessToken (user : nat) : Prog (option string) :=
  auth <- read_auth user ;;
  match auth with
  | None => Throw (Js.new_Error "Amazon account not connected")
  | Some a =>
      if negb (Js.truthy (accessToken a))
      then Throw (Js.new_Error "Amazon account not connected")
      else
        now <- call DateNow ;;
        (if expiring now (tokenExpiresAt a) then
           if negb (Js.truthy (refreshToken a))
           then Throw (Js.new_Error
                  "No refresh token available. Please reconnect your Amazon account.")
           else
             tokenData <- SpApi.refreshAccessToken config (refreshToken a) ;;
             assign user (with_accessToken (access_token tokenData)) ;;;
             now' <- call DateNow ;;
             assign user
               (with_tokenExpiresAt
                  (expires_in tokenData ≫= fun s => Js.new_Date (now' + s * 1000))) ;;;
             (if Js.truthy (refresh_token tokenData)
              then assign user (with_refreshToken (refresh_token tokenData))
              else Ret tt) ;;;
             save user
         else Ret tt) ;;;
        auth' <- read_auth user ;;
        match auth' with
        | Some a' => Ret (accessToken a')
        | None => Throw TypeError
        end
  end.

(** The request [refreshAccessToken] posts for a credential. *)
Definition refresh_request (a : AmazonAuth) : Req :=
  PostToken {| grant := RefreshTokenGrant (Js.interpolate (refreshToken a));
               client_id := Js.interpolate (clientId config);
               client_secret := Js.interpolate (clientSecret config) |}.

End WithConfig.

(** The credential after lines 36-42 of the helper ran on the token
    response [td] received at time [now]. *)
Definition refreshed (now : Z) (td : TokenData) (a : AmazonAuth) : AmazonAuth :=
  {| accessToken := access_token td;
     refreshToken := if Js.truthy (refresh_token td) then refresh_token td
                     else refreshToken a;
     tokenExpiresAt := expires_in td ≫= fun s => Js.new_Date (now + s * 1000);
     sellerId := sellerId a;
     connectedAt := connectedAt a |}.

End Routes.

(** ** Several requests in flight

    A started async function runs up to its first [await]; when the
    awaited operation settles it runs on to the next one. Handlers of
    different requests interleave only at these points. *)

Fixpoint settle {R} (env : Env) (p : Prog R) (w : World) : Prog R * World :=
  match p with
  | Vis q k =>
      if is_await q then (Vis q k, w)
      else let '(a, w') := perform env q w in settle env (k a) w'
  | done => (done, w)
  end.

Definition resume {R} (env : Env) (p : Prog R) (w : World) : Prog R * World :=
  match p with
  | Vis q k => let '(a, w') := perform env q w in settle env (k a) w'
  | done => (done, w)
  end.

(** Start the handlers one after the other. *)
Fixpoint start {R} (env : Env) (ps : list (Prog R)) (w : World)
  : list (Prog R) * World :=
  match ps with
  | [] => ([], w)
  | p :: rest =>
      let '(p', w') := settle env p w in
      let '(rest', w'') := start env rest w' in
      (p' :: rest', w'')
  end.

(** Settle the pending operations in the order given by [turns]. *)
Fixpoint schedule {R} (env : Env) (turns : list nat) (pool : list (Prog R))
    (w : World) : list (Prog R) * World :=
  match turns with
  | [] => (pool, w)
  | i :: rest =>
      match pool !! i with
      | Some p =>
          let '(p', w') := resume env p w in
          schedule env rest (<[i := p']> pool) w'
      | None => schedule env rest pool w
      end
  end.

(** The refresh grants among the requests issued. *)
Definition is_refresh_call (q : Req) : bool :=
  match q with
  | PostToken form =>
      match grant form with
      | RefreshTokenGrant _ => true
      | AuthorizationCode _ _ => false
      end
  | _ => false
  end.

Definition refresh_calls (l : list Entry) : nat :=
  length (List.filter (fun e => is_refresh_call (request e)) l).

(** ** Reading the log *)

Definition is_orders_request (q : Req) : bool :=
  match q with
  | GetOrders _ _ _ => true
  | _ => false
  end.

(** The requests of the pagination loop ask for pages of 50. *)
Definition is_page_request (q : Req) : bool :=
  match q with
  | GetOrders _ _ p => MaxResultsPerPage p =? 50
  | _ => false
  end.

Definition page_requests (l : list Entry) : nat :=
  length (List.filter (fun e => is_page_request (request e)) l).


(** A draw of the random generator. *)
Definition draw (e : Entry) : Prop :=
  request e = MathRandom /\ failure e = None.

(** An entry of the pagination loop run with the given tokens: a page
    request carrying [restrictedToken || accessToken], or the pause
    between two pages. *)
Definition page_traffic (accessToken restrictedToken : option string)
    (e : Entry) : Prop :=
  match request e with
  | GetOrders _ h p =>
      x_amz_access_token h = SpApi.token_or restrictedToken accessToken
      /\ MaxResultsPerPage p = 50
  | SetTimeout _ => failure e = None
  | _ => False
  end.

(** Both orders carry a valid date, the first not before the second. *)
Definition dated_not_before (a b : OrderRecord) : Prop :=
  exists ta tb,
    JsDate.parse (orderDate a) = Some ta
    /\ JsDate.parse (orderDate b) = Some tb
    /\ tb <= ta.


(** The host keeps one offset from UTC, as a server running in UTC
    does: no daylight-saving change. *)
Definition steady_zone (env : Env) : Prop :=
  exists offset, forall t isUTC, reply env [] (LocalTZA t isUTC) = offset.

(** What [generateMockOrderData] returns when called at [now] on such
    a host. *)
Definition synthetic_set (now : Z) (l : list OrderRecord) : Prop :=
  Forall (SpApi.synthetic now) l
  /\ (5 <= length l <= 24)%nat
  /\ (JsDate.four_digit_era now -> Sorted.StronglySorted dated_not_before l).

(** Every page the upstream hands out holds at most [n] orders. *)
Definition pages_at_most (env : Env) (n : nat) : Prop :=
  forall history url h p payload orders,
    reply env history (GetOrders url h p) = Js.Resolved (Some payload) ->
    Orders payload = Some orders ->
    (length orders <= n)%nat.



(** The restricted-data token endpoint is of no use. *)
Definition restricted_token_fails (env : Env) : Prop :=
  forall history url h, exists e,
    reply env history (PostRestrictedDataToken url h) = Js.Rejected e.

(** The one-result request of the access check is answered. *)
Definition access_check_answered (env : Env) : Prop :=
  forall history url h p,
    MaxResultsPerPage p = 1 ->
    exists d, reply env history (GetOrders url h p) = Js.Resolved d.

(** Every page request of the pagination loop is answered with 50
    orders and a cursor. *)
Definition full_pages (env : Env) : Prop :=
  forall history url h p,
    MaxResultsPerPage p = 50 ->
    exists orders cursor,
      reply env history (GetOrders url h p)
      = Js.Resolved (Some {| Orders := Some orders; NextToken := Some cursor |})
      /\ length orders = 50%nat
      /\ Js.truthy (Some cursor) = true.


(** ** Concrete deployments and upstream behaviours *)

Module Scenario.

Definition config : Config :=
  {| clientId := Some "amzn1.application-oa2-client.demo";
     clientSecret := Some "secret";
     redirectUri := Some "https://app.example/api/amazon/callback";
     region := "eu";
     sandbox := false;
     applicationId := Some "amzn1.sp.solution.demo" |}.

Definition http_error (code : Z) : Js.Error :=
  {| Js.message := "Request failed with status code " +:+ JsNum.decimal code;
     Js.response := Some {| Js.status := code; Js.api_message := None;
                            Js.error_description := None |} |}.

(** An outside world given by the behaviour of each endpoint. *)
Definition make_env
    (orders : list Entry -> OrdersParams -> Js.Http (option OrdersPayload))
    (token : Js.Http TokenData)
    (rdt : Js.Http (option string))
    (participations : Js.Http (option nat))
    (random : list Entry -> Z)
    (saved : option Js.Error) : Env :=
  {| reply := fun history q =>
       match q as q0 return Ans q0 with
       | GetOrders _ _ p => orders history p
       | PostToken _ => token
       | PostRestrictedDataToken _ _ => rdt
       | GetMarketplaceParticipations _ _ => participations
       | SetTimeout _ => tt
       | Save _ => saved
       | MathRandom => random history
       | DateNow => 0
       | ReadDoc _ => None
       | WriteDoc _ _ => tt
       | LocalTZA _ _ => 0
       | NumberToString36 _ => "0.4fzyo82mvyr"
       end;
     elapsed := fun _ q => match q with SetTimeout ms => ms | _ => 40 end |}.

Definition fresh_tokens : TokenData :=
  {| access_token := Some "Atza|fresh";
     refresh_token := None;
     expires_in := Some 3600 |}.

Definition rotated_tokens : TokenData :=
  {| access_token := Some "Atza|fresh";
     refresh_token := Some "Atzr|rotated";
     expires_in := Some 3600 |}.

Definition no_orders : list Entry -> OrdersParams -> Js.Http (option OrdersPayload) :=
  fun _ _ => Js.Resolved (Some {| Orders := Some []; NextToken := None |}).

Definition token_env (td : TokenData) : Env :=
  make_env no_orders (Js.Resolved td) (Js.Resolved None) (Js.Resolved (Some 1%nat))
    (fun _ => 0) None.

Definition t0 : Z := 1700000000000.

(** A linked credential that expires [margin] ms after [t0]. *)
Definition credential (margin : Z) : AmazonAuth :=
  {| accessToken := Some "Atza|stored";
     refreshToken := Some "Atzr|stored";
     tokenExpiresAt := Some (t0 + margin);
     sellerId := Some "A1SELLER";
     connectedAt := Some (t0 - 1000) |}.

Definition seller (margin : Z) : User :=
  {| user_id := "65f0c0ffee"; amazonAuth := Some (credential margin) |}.

(** The document is loaded as object 0 and stored under its id. *)
Definition world (margin : Z) : World :=
  {| clock := t0;
     docs := {[ 0%nat := seller margin ]};
     db := {[ "65f0c0ffee" := seller margin ]};
     log := [] |}.

Definition token : option string := Some "Atza|stored".

Definition sellerId : option string := Some "A1SELLER".

Definition sample_order : UpstreamOrder :=
  {| AmazonOrderId := Some "402-1234567-1234567";
     PurchaseDate := Some "2023-11-10T08:15:30Z";
     OrderStatus := Some "Shipped";
     OrderTotal := Some {| CurrencyCode := Some "INR"; Amount := Some "450.00" |} |}.

Definition order_without_total : UpstreamOrder :=
  {| AmazonOrderId := Some "402-7654321-7654321";
     PurchaseDate := Some "2023-11-11T10:00:00Z";
     OrderStatus := Some "Pending";
     OrderTotal := None |}.

(** An upstream that always has more: pages of [size] with a cursor. *)
Definition paging_env (size : nat) : Env :=
  make_env
    (fun _ _ => Js.Resolved (Some {| Orders := Some (repeat sample_order size);
                                     NextToken := Some "cursor" |}))
    (Js.Resolved fresh_tokens) (Js.Rejected (http_error 403))
    (Js.Resolved (Some 1%nat)) (fun _ => 0) None.

(** A seller with many orders: every page is as long as was asked for. *)
Definition busy_seller : Env :=
  make_env
    (fun _ p => Js.Resolved
                  (Some {| Orders := Some (repeat sample_order
                                             (Z.to_nat (MaxResultsPerPage p)));
                           NextToken := Some "cursor" |}))
    (Js.Resolved fresh_tokens) (Js.Resolved None)
    (Js.Resolved (Some 1%nat)) (fun _ => 0) None.









(** A deployment whose client secret was not set. *)
Definition half_config : Config :=
  {| clientId := Some "amzn1.application-oa2-client.demo";
     clientSecret := None;
     redirectUri := Some "https://app.example/api/amazon/callback";
     region := "eu";
     sandbox := false;
     applicationId := Some "amzn1.sp.solution.demo" |}.

(** The token endpoint refuses with a description of the error. *)
Definition invalid_grant : Js.Error :=
  {| Js.message := "Request failed with status code 400";
     Js.response := Some {| Js.status := 400; Js.api_message := None;
                            Js.error_description :=
                              Some "The request has an invalid grant parameter" |} |}.

Definition refusing_env : Env :=
  make_env no_orders (Js.Rejected invalid_grant) (Js.Resolved None)
    (Js.Resolved (Some 1%nat)) (fun _ => 0) None.

(** The token endpoint answers, the database does not take the write. *)
Definition write_error : Js.Error := Js.new_Error "connection closed".

Definition failing_store : Env :=
  make_env no_orders (Js.Resolved fresh_tokens) (Js.Resolved None)
    (Js.Resolved (Some 1%nat)) (fun _ => 0) (Some write_error).

(** A user who never linked an account, loaded as object 0. *)
Definition newcomer : User := {| user_id := "65f0c0ffee"; amazonAuth := None |}.

Definition unlinked_world : World :=
  {| clock := t0; docs := {[ 0%nat := newcomer ]};
     db := {[ "65f0c0ffee" := newcomer ]}; log := [] |}.

(** A linked user whose credential, [margin] ms from expiry, has no
    refresh token. *)
Definition no_refresh_world (margin : Z) : World :=
  let u := {| user_id := "65f0c0ffee";
              amazonAuth := Some (Routes.with_refreshToken None
                                    (credential margin)) |} in
  {| clock := t0; docs := {[ 0%nat := u ]};
     db := {[ "65f0c0ffee" := u ]}; log := [] |}.

(** The whole window fits one page, whatever is asked. *)
Definition single_page_env (page : list UpstreamOrder) : Env :=
  make_env
    (fun _ _ => Js.Resolved (Some {| Orders := Some page; NextToken := None |}))
    (Js.Resolved fresh_tokens) (Js.Rejected (http_error 500))
    (Js.Resolved (Some 1%nat)) (fun _ => 0) None.

End Scenario.

(** ** Text, buffers and JSON, as the OAuth state uses them

    A text value is held as the bytes of its UTF-8 form, which is how
    [Buffer.from(text)] stores it; texts with unpaired surrogates have no
    such form and are outside the model. *)

Module Utf8.

Definition byte_in (lo hi : N) (c : ascii) : bool :=
  ((lo <=? N_of_ascii c) && (N_of_ascii c <=? hi))%N.

(** U+FFFD, which the decoder puts in place of bytes it cannot read. *)
Definition replacement : string :=
  String "239" (String "191" (String "189" EmptyString)).

(** What a byte starts: a character of its own, a sequence with [need]
    more bytes of which the next lies in [lo..hi], or nothing. *)
Inductive Start :=
| Single
| Lead (need : nat) (lo hi : N)
| Invalid.

Definition start (c : ascii) : Start :=
  let n := N_of_ascii c in
  if (n <=? 127)%N then Single
  else if ((194 <=? n) && (n <=? 223))%N then Lead 1 128 191
  else if ((224 <=? n) && (n <=? 239))%N then
    Lead 2 (if (n =? 224)%N then 160 else 128) (if (n =? 237)%N then 159 else 191)
  else if ((240 <=? n) && (n <=? 244))%N then
    Lead 3 (if (n =? 240)%N then 144 else 128) (if (n =? 244)%N then 143 else 191)
  else Invalid.

(** [buf.toString()]: the UTF-8 decoder. [pending] holds the bytes of the
    sequence being read, [need] how many are still missing, [lo..hi] the
    range of the next one. A byte out of range ends the sequence with a
    replacement character and is read again as a first byte. *)
Fixpoint decode (pending : string) (need : nat) (lo hi : N) (s : string)
  : string :=
  match s with
  | EmptyString => match need with O => EmptyString | S _ => replacement end
  | String c r =>
      let fresh :=
        match start c with
        | Single => String c (decode EmptyString 0 128 191 r)
        | Lead n l h => decode (String c EmptyString) n l h r
        | Invalid => replacement +:+ decode EmptyString 0 128 191 r
        end in
      match need with
      | O => fresh
      | S n =>
          if byte_in lo hi c then
            match n with
            | O => pending +:+ String c (decode EmptyString 0 128 191 r)
            | S _ => decode (pending +:+ String c EmptyString) n 128 191 r
            end
          else replacement +:+ fresh
      end
  end.

(** Well-formed UTF-8 byte sequences (the Unicode standard's table of
    well-formed sequences). *)
Inductive well_formed : string -> Prop :=
| wf_end : well_formed EmptyString
| wf_one c s :
    byte_in 0 127 c = true -> well_formed s -> well_formed (String c s)
| wf_two c1 c2 s :
    byte_in 194 223 c1 = true -> byte_in 128 191 c2 = true ->
    well_formed s -> well_formed (String c1 (String c2 s))
| wf_three c1 c2 c3 s :
    byte_in 224 239 c1 = true ->
    byte_in (if (N_of_ascii c1 =? 224)%N then 160 else 128)
            (if (N_of_ascii c1 =? 237)%N then 159 else 191) c2 = true ->
    byte_in 128 191 c3 = true ->
    well_formed s -> well_formed (String c1 (String c2 (String c3 s)))
| wf_four c1 c2 c3 c4 s :
    byte_in 240 244 c1 = true ->
    byte_in (if (N_of_ascii c1 =? 240)%N then 144 else 128)
            (if (N_of_ascii c1 =? 244)%N then 143 else 191) c2 = true ->
    byte_in 128 191 c3 = true -> byte_in 128 191 c4 = true ->
    well_formed s ->
    well_formed (String c1 (String c2 (String c3 (String c4 s)))).

(** Texts of characters below 128. *)
Fixpoint ascii_only (s : string) : bool :=
  match s with
  | EmptyString => true
  | String c r => byte_in 0 127 c && ascii_only r
  end.

End Utf8.

Module Base64.

Definition alphabet : string :=
  "ABCDEFGHIJKLMNOPQRSTUVWXYZabcdefghijklmnopqrstuvwxyz0123456789+/".

Definition pad_char : ascii := "=".

Definition digit (i : N) : ascii :=
  match String.get (N.to_nat i) alphabet with
  | Some c => c
  | None => pad_char
  end.

(** The decoder's table: both the standard and the URL-safe alphabet. *)
Definition unbase64 (c : ascii) : option N :=
  let n := N_of_ascii c in
  if ((65 <=? n) && (n <=? 90))%N then Some (n - 65)%N
  else if ((97 <=? n) && (n <=? 122))%N then Some (n - 71)%N
  else if ((48 <=? n) && (n <=? 57))%N then Some (n + 4)%N
  else if ((n =? 43) || (n =? 45))%N then Some 62%N
  else if ((n =? 47) || (n =? 95))%N then Some 63%N
  else None.

(** [buf.toString("base64")] *)
Fixpoint encode (s : string) : string :=
  match s with
  | EmptyString => EmptyString
  | String a EmptyString =>
      let a := N_of_ascii a in
      String (digit (a / 4)) (String (digit (a mod 4 * 16))
        (String pad_char (String pad_char EmptyString)))
  | String a (String b EmptyString) =>
      let a := N_of_ascii a in
      let b := N_of_ascii b in
      String (digit (a / 4)) (String (digit (a mod 4 * 16 + b / 16))
        (String (digit (b mod 16 * 4)) (String pad_char EmptyString)))
  | String a (String b (String c r)) =>
      let a := N_of_ascii a in
      let b := N_of_ascii b in
      let c := N_of_ascii c in
      String (digit (a / 4)) (String (digit (a mod 4 * 16 + b / 16))
        (String (digit (b mod 16 * 4 + c / 64)) (String (digit (c mod 64))
          (encode r))))
  end%N.

(** The six-bit values of the text: characters outside the alphabets are
    skipped, the first padding character ends the data. *)
Fixpoint sextets (s : string) : list N :=
  match s with
  | EmptyString => []
  | String c r =>
      if Ascii.eqb c pad_char then []
      else match unbase64 c with
           | Some v => v :: sextets r
           | None => sextets r
           end
  end.

Fixpoint bytes_of (l : list N) : string :=
  match l with
  | s1 :: s2 :: s3 :: s4 :: r =>
      String (ascii_of_N (s1 * 4 + s2 / 16))
        (String (ascii_of_N (s2 mod 16 * 16 + s3 / 4))
           (String (ascii_of_N (s3 mod 4 * 64 + s4)) (bytes_of r)))
  | [s1; s2; s3] =>
      String (ascii_of_N (s1 * 4 + s2 / 16))
        (String (ascii_of_N (s2 mod 16 * 16 + s3 / 4)) EmptyString)
  | [s1; s2] => String (ascii_of_N (s1 * 4 + s2 / 16)) EmptyString
  | _ => EmptyString
  end%N.

(** [Buffer.from(text, "base64")] *)
Definition decode (s : string) : string := bytes_of (sextets s).

(** The check that the decoder's table inverts the alphabet. *)
Definition digit_check (z : Z) : bool :=
  let i := Z.to_N z in
  match unbase64 (digit i) with
  | Some j => (i =? j)%N && negb (Ascii.eqb (digit i) pad_char)
  | None => false
  end.

End Base64.

Module Buffer.

(** [Buffer.from(text)]: the bytes of the text. *)
Definition from (text : string) : string := text.

(** [buf.toString()] *)
Definition toString (buf : string) : string :=
  Utf8.decode EmptyString 0 128 191 buf.

Definition from_base64 (text : string) : string := Base64.decode text.

Definition toString_base64 (buf : string) : string := Base64.encode buf.

End Buffer.

Module Json.

Definition dquote : ascii := "034".
Definition backslash : ascii := "092".

#[local] Unset Elimination Schemes.
Inductive Value :=
| Null
| Bool (b : bool)
| Number (mantissa exponent : Z)      (* mantissa * 10 ^ exponent *)
| Str (s : string)
| Arr (items : list Value)
| Obj (members : list (string * Value)).
#[local] Set Elimination Schemes.

(** *** [JSON.stringify] *)

Definition hex_digit (n : N) : ascii :=
  if (n <? 10)%N then ascii_of_N (48 + n) else ascii_of_N (87 + n).

(** One character of a quoted string. *)
Definition escape (c : ascii) : string :=
  let n := N_of_ascii c in
  if (n =? 8)%N then "\b"
  else if (n =? 9)%N then "\t"
  else if (n =? 10)%N then "\n"
  else if (n =? 12)%N then "\f"
  else if (n =? 13)%N then "\r"
  else if (n =? 34)%N then String backslash (String dquote EmptyString)
  else if (n =? 92)%N then String backslash (String backslash EmptyString)
  else if (n <? 32)%N then
    "\u00" +:+ String (hex_digit (n / 16)) (String (hex_digit (n mod 16)) EmptyString)
  else String c EmptyString.

Fixpoint quote_body (s : string) : string :=
  match s with
  | EmptyString => EmptyString
  | String c r => escape c +:+ quote_body r
  end.

Definition quote (s : string) : string :=
  String dquote (quote_body s +:+ String dquote EmptyString).

(** A time value, as every integer below 10^21 in absolute value,
    prints as its digits. *)
Definition number (n : Z) : string :=
  if n <? 0 then "-" +:+ JsNum.decimal (- n) else JsNum.decimal n.

(** *** [JSON.parse] *)

Definition is_ws (c : ascii) : bool :=
  let n := N_of_ascii c in
  ((n =? 32) || (n =? 9) || (n =? 10) || (n =? 13))%N.

Fixpoint skip_ws (s : string) : string :=
  match s with
  | String c r => if is_ws c then skip_ws r else s
  | EmptyString => s
  end.

Definition is_digit (c : ascii) : bool :=
  ((48 <=? N_of_ascii c) && (N_of_ascii c <=? 57))%N.

(** The longest run of digits at the head of the text, and the rest. *)
Fixpoint digits (s : string) : string * string :=
  match s with
  | String c r =>
      if is_digit c then let '(d, r') := digits r in (String c d, r')
      else (EmptyString, s)
  | EmptyString => (EmptyString, s)
  end.

Definition digits_number (ds : string) : Z :=
  match NilEmpty.uint_of_string ds with
  | Some u => Z.of_N (N.of_uint u)
  | None => 0
  end.

Definition fraction (s : string) : option (string * string) :=
  match s with
  | String "." r =>
      let '(d, r') := digits r in
      if String.eqb d EmptyString then None else Some (d, r')
  | _ => Some (EmptyString, s)
  end.

Definition exponent_digits (negative : bool) (s : string) : option (Z * string) :=
  let '(d, r) := digits s in
  if String.eqb d EmptyString then None
  else Some (if negative then - digits_number d else digits_number d, r).

Definition exponent_part (s : string) : option (Z * string) :=
  match s with
  | String c r =>
      if Ascii.eqb c "e" || Ascii.eqb c "E" then
        match r with
        | String "+" r' => exponent_digits false r'
        | String "-" r' => exponent_digits true r'
        | _ => exponent_digits false r
        end
      else Some (0, s)
  | EmptyString => Some (0, s)
  end.

(** A character after which a number cannot go on. *)
Definition ends_number (c : ascii) : bool :=
  negb (is_digit c) && negb (Ascii.eqb c ".")
  && negb (Ascii.eqb c "e") && negb (Ascii.eqb c "E")
  && negb (Ascii.eqb c "-").

(** A number: sign, integer part without leading zeros, fraction,
    exponent. *)
Definition parse_number (s : string) : option (Value * string) :=
  let '(negative, s1) :=
    match s with
    | String "-" r => (true, r)
    | _ => (false, s)
    end in
  let '(int, s2) :=
    match s1 with
    | String "0" r => ("0", r)
    | _ => digits s1
    end in
  if String.eqb int EmptyString then None
  else
    match fraction s2 with
    | None => None
    | Some (frac, s3) =>
        match exponent_part s3 with
        | None => None
        | Some (e, s4) =>
            let m := digits_number (int +:+ frac) in
            Some (Number (if negative then - m else m)
                         (e - Z.of_nat (String.length frac)), s4)
        end
    end.

Definition hex_value (c : ascii) : option N :=
  let n := N_of_ascii c in
  if ((48 <=? n) && (n <=? 57))%N then Some (n - 48)%N
  else if ((97 <=? n) && (n <=? 102))%N then Some (n - 87)%N
  else if ((65 <=? n) && (n <=? 70))%N then Some (n - 55)%N
  else None.

(** The code unit of four hexadecimal digits at the head of the text. *)
Definition hex4 (s : string) : option N :=
  match s with
  | String a (String b (String c (String d _))) =>
      match hex_value a, hex_value b, hex_value c, hex_value d with
      | Some a, Some b, Some c, Some d =>
          Some (((a * 16 + b) * 16 + c) * 16 + d)%N
      | _, _, _, _ => None
      end
  | _ => None
  end.

(** The UTF-8 bytes of a code point; a surrogate on its own is kept in
    the three-byte form. *)
Definition utf8 (cp : N) : string :=
  (if cp <? 128 then String (ascii_of_N cp) EmptyString
   else if cp <? 2048 then
     String (ascii_of_N (192 + cp / 64))
       (String (ascii_of_N (128 + cp mod 64)) EmptyString)
   else if cp <? 65536 then
     String (ascii_of_N (224 + cp / 4096))
       (String (ascii_of_N (128 + cp / 64 mod 64))
          (String (ascii_of_N (128 + cp mod 64)) EmptyString))
   else
     String (ascii_of_N (240 + cp / 262144))
       (String (ascii_of_N (128 + cp / 4096 mod 64))
          (String (ascii_of_N (128 + cp / 64 mod 64))
             (String (ascii_of_N (128 + cp mod 64)) EmptyString))))%N.

(** The escape that follows a backslash: its bytes and the number of
    characters it takes. Two [\u] escapes that form a surrogate pair are
    one character. *)
Definition escape_at (s : string) : option (string * nat) :=
  match s with
  | String c r =>
      let n := N_of_ascii c in
      let one (b : N) := Some (String (ascii_of_N b) EmptyString, 1%nat) in
      if (n =? 34)%N then one 34%N
      else if (n =? 92)%N then one 92%N
      else if (n =? 47)%N then one 47%N
      else if (n =? 98)%N then one 8%N
      else if (n =? 102)%N then one 12%N
      else if (n =? 110)%N then one 10%N
      else if (n =? 114)%N then one 13%N
      else if (n =? 116)%N then one 9%N
      else if (n =? 117)%N then
        match hex4 r with
        | Some hi =>
            if ((55296 <=? hi) && (hi <=? 56319))%N then
              match r with
              | String _ (String _ (String _ (String _
                  (String "\" (String "u" r'))))) =>
                  match hex4 r' with
                  | Some lo =>
                      if ((56320 <=? lo) && (lo <=? 57343))%N
                      then Some (utf8 (65536 + (hi - 55296) * 1024
                                       + (lo - 56320))%N, 11%nat)
                      else Some (utf8 hi, 5%nat)
                  | None => Some (utf8 hi, 5%nat)
                  end
              | _ => Some (utf8 hi, 5%nat)
              end
            else Some (utf8 hi, 5%nat)
        | None => None
        end
      else None
  | EmptyString => None
  end.

Definition prepend (bytes : string) (r : option (string * string))
  : option (string * string) :=
  match r with
  | Some (s, rest) => Some (bytes +:+ s, rest)
  | None => None
  end.

(** The characters of a string up to its closing quote, and the text
    after it; [skip] characters of an escape already read are passed
    over. *)
Fixpoint chars (skip : nat) (s : string) : option (string * string) :=
  match s with
  | EmptyString => None
  | String c r =>
      match skip with
      | S k => chars k r
      | O =>
          if Ascii.eqb c dquote then Some (EmptyString, r)
          else if Ascii.eqb c backslash then
            match escape_at r with
            | Some (bytes, width) => prepend bytes (chars width r)
            | None => None
            end
          else if (N_of_ascii c <? 32)%N then None
          else prepend (String c EmptyString) (chars 0 r)
      end
  end.

Definition literal (word : string) (v : Value) (s : string)
  : option (Value * string) :=
  if String.prefix word s
  then Some (v, String.substring (String.length word)
                  (String.length s - String.length word) s)
  else None.

(** The elements of an array after its opening bracket. *)
Fixpoint elements (value : string -> option (Value * string)) (fuel : nat)
    (s : string) : option (list Value * string) :=
  match fuel with
  | O => None
  | S fuel' =>
      match value s with
      | Some (v, r) =>
          match skip_ws r with
          | String "," r' =>
              match elements value fuel' r' with
              | Some (vs, r'') => Some (v :: vs, r'')
              | None => None
              end
          | String "]" r' => Some ([v], r')
          | _ => None
          end
      | None => None
      end
  end.

(** The members of an object after its opening brace. *)
Fixpoint members (value : string -> option (Value * string)) (fuel : nat)
    (s : string) : option (list (string * Value) * string) :=
  match fuel with
  | O => None
  | S fuel' =>
      match skip_ws s with
      | String c r =>
          if Ascii.eqb c dquote then
            match chars 0 r with
            | Some (k, r1) =>
                match skip_ws r1 with
                | String ":" r2 =>
                    match value r2 with
                    | Some (v, r3) =>
                        match skip_ws r3 with
                        | String "," r4 =>
                            match members value fuel' r4 with
                            | Some (ms, r5) => Some ((k, v) :: ms, r5)
                            | None => None
                            end
                        | String "}" r4 => Some ([(k, v)], r4)
                        | _ => None
                        end
                    | None => None
                    end
                | _ => None
                end
            | None => None
            end
          else None
      | EmptyString => None
      end
  end.

(** A value; [fuel] bounds the nesting and the number of elements. *)
Fixpoint value (fuel : nat) (s : string) : option (Value * string) :=
  match fuel with
  | O => None
  | S fuel' =>
      match skip_ws s with
      | EmptyString => None
      | String c r =>
          if Ascii.eqb c "{" then
            match skip_ws r with
            | String "}" r' => Some (Obj [], r')
            | _ =>
                match members (value fuel') fuel' r with
                | Some (ms, r') => Some (Obj ms, r')
                | None => None
                end
            end
          else if Ascii.eqb c "[" then
            match skip_ws r with
            | String "]" r' => Some (Arr [], r')
            | _ =>
                match elements (value fuel') fuel' r with
                | Some (vs, r') => Some (Arr vs, r')
                | None => None
                end
            end
          else if Ascii.eqb c dquote then
            match chars 0 r with
            | Some (str, r') => Some (Str str, r')
            | None => None
            end
          else if Ascii.eqb c "t" then literal "true" (Bool true) (String c r)
          else if Ascii.eqb c "f" then literal "false" (Bool false) (String c r)
          else if Ascii.eqb c "n" then literal "null" Null (String c r)
          else parse_number (String c r)
      end
  end.

(** [JSON.parse(text)]; [None] is the [SyntaxError]. A text nests and
    lists less than it is long. *)
Definition parse (text : string) : option Value :=
  match value (S (String.length text)) text with
  | Some (v, r) =>
      match skip_ws r with
      | EmptyString => Some v
      | _ => None
      end
  | None => None
  end.

(** [v[key]] for a parsed value that is not [null]: the last member of
    that name of an object, [undefined] otherwise. *)
Fixpoint lookup (key : string) (ms : list (string * Value)) : option Value :=
  match ms with
  | [] => None
  | (k, v) :: r =>
      match lookup key r with
      | Some v' => Some v'
      | None => if String.eqb k key then Some v else None
      end
  end.

Definition member (key : string) (v : Value) : option Value :=
  match v with
  | Obj ms => lookup key ms
  | _ => None
  end.

(** [!!v] *)
Definition truthy (v : option Value) : bool :=
  match v with
  | None | Some Null | Some (Bool false) => false
  | Some (Number m _) => negb (m =? 0)
  | Some (Str s) => negb (String.eqb s EmptyString)
  | Some _ => true
  end.

End Json.

(** ** The OAuth state of [routes/amazon.js] *)

Module OAuth.

(** [JSON.stringify({ userId, timestamp })] *)
Definition state_json (userId : string) (timestamp : Z) : string :=
  "{" +:+ Json.quote "userId" +:+ ":" +:+ Json.quote userId +:+ ","
      +:+ Json.quote "timestamp" +:+ ":" +:+ Json.number timestamp +:+ "}".

(** The [state] parameter the [/auth-url] route builds. *)
Definition make_state (userId : string) (timestamp : Z) : string :=
  Buffer.toString_base64 (Buffer.from (state_json userId timestamp)).

(** What the [/callback] route reads back from it: [None] when
    [JSON.parse] throws. *)
Definition decode_state (state : string) : option Json.Value :=
  Json.parse (Buffer.toString (Buffer.from_base64 state)).

End OAuth.

(** * Properties *)

(** ** How [run] goes through sequencing and handlers *)

Section RunLaws.
Context {A B : Type} (env : Env).

Lemma run_bind (p : Prog A) (f : A -> Prog B) w :
  run env (bind p f) w =
  match run env p w with
  | (Returned a, w') => run env (f a) w'
  | (Thrown e, w') => (Thrown e, w')
  | (Diverged, w') => (Diverged, w')
  end.
Proof.
  revert w. induction p as [a | e | | q k IH]; intros w; cbn; try reflexivity.
  destruct (perform env q w) as [x w']. apply IH.
Qed.

Lemma run_try_catch (p : Prog A) (h : Js.Error -> Prog A) w :
  run env (try_catch p h) w =
  match run env p w with
  | (Thrown e, w') => run env (h e) w'
  | other => other
  end.
Proof.
  revert w. induction p as [a | e | | q k IH]; intros w; cbn; try reflexivity.
  destruct (perform env q w) as [x w']. apply IH.
Qed.
End RunLaws.

Lemma refresh_calls_app l1 l2 :
  refresh_calls (l1 ++ l2) = (refresh_calls l1 + refresh_calls l2)%nat.
Proof. unfold refresh_calls. rewrite List.filter_app, length_app. reflexivity. Qed.

(** ** Token freshness *)

Section Freshness.
Variables (config : Config) (env : Env).
Variables (w : World) (user : nat) (doc : User) (a : AmazonAuth).
Hypothesis loaded : docs w !! user = Some doc.
Hypothesis linked : amazonAuth doc = Some a.
Hypothesis has_token : Js.truthy (accessToken a) = true.

(** C3. A linked credential that expires more than five minutes from now
    is returned as stored: no request is issued (so no refresh call) and
    neither the loaded document nor the persisted record changes. *)
Theorem ensure_fresh_no_refresh expiry :
  tokenExpiresAt a = Some expiry ->
  expiry - clock w > Routes.bufferTime ->
  run env (Routes.ensureValidAccessToken config user) w
  = (Returned (accessToken a), w).
Proof.
  intros Hexp Hfresh.
  unfold Routes.ensureValidAccessToken, Routes.read_auth.
  cbn. rewrite loaded. cbn. rewrite linked. cbn. rewrite has_token. cbn.
  rewrite Hexp. cbn.
  destruct (clock w >? expiry - Routes.bufferTime) eqn:Hcmp; [lia |].
  cbn. rewrite loaded. cbn. rewrite linked. reflexivity.
Qed.

Hypothesis stale : Routes.expiring (clock w) (tokenExpiresAt a) = true.
Hypothesis has_refresh : Js.truthy (refreshToken a) = true.
Hypothesis configured : SpApi.missing_keys config = [].

(** The whole refresh path, by the answers of the token endpoint and of
    the persistence layer. *)
Lemma ensure_refresh_path :
  let q := Routes.refresh_request config a in
  let t1 := clock w + elapsed env (log w) q in
  run env (Routes.ensureValidAccessToken config user) w =
  match reply env (log w) q with
  | Js.Resolved td =>
      let doc' := {| user_id := user_id doc;
                     amazonAuth := Some (Routes.refreshed t1 td a) |} in
      let l1 := log w ++ [ {| request := q; failure := None |} ] in
      let t2 := t1 + elapsed env l1 (Save user) in
      match reply env l1 (Save user) with
      | None =>
          (Returned (access_token td),
           {| clock := t2; docs := <[user := doc']> (docs w);
              db := <[user_id doc := doc']> (db w);
              log := l1 ++ [ {| request := Save user; failure := None |} ] |})
      | Some e =>
          (Thrown e,
           {| clock := t2; docs := <[user := doc']> (docs w);
              db := db w;
              log := l1 ++ [ {| request := Save user; failure := Some e |} ] |})
      end
  | Js.Rejected e =>
      (Thrown (Js.new_Error
                 ("Failed to refresh access token: "
                    +:+ Js.or_else (Js.response e ≫= Js.error_description)
                                   (Js.message e))),
       {| clock := t1; docs := docs w; db := db w;
          log := log w ++ [ {| request := q; failure := Some e |} ] |})
  end.
Proof.
  intros q t1. subst q t1.
  unfold Routes.refresh_request, Routes.ensureValidAccessToken, Routes.read_auth.
  cbn. rewrite loaded. cbn. rewrite linked. cbn. rewrite has_token. cbn.
  rewrite stale, has_refresh. cbn.
  unfold SpApi.refreshAccessToken, SpApi.validateConfig.
  rewrite configured, has_refresh. cbn.
  match goal with
  | |- context [reply env (log w) ?r] =>
      destruct (reply env (log w) r) as [td | e]
  end; cbn.
  2: reflexivity.
  rewrite loaded. cbn. rewrite linked. cbn.
  rewrite lookup_insert_eq. cbn.
  unfold Routes.refreshed.
  destruct (Js.truthy (refresh_token td)) eqn:Hnew; cbn;
    rewrite ?lookup_insert_eq; cbn; unfold logged; cbn;
    match goal with
    | |- context [reply env ?l (Save user)] =>
        destruct (reply env l (Save user)) as [e |]
    end; cbn; unfold persist; cbn;
    rewrite ?lookup_insert_eq; cbn; rewrite ?insert_insert_eq;
    reflexivity.
Qed.

(** C4. When the helper refreshes and the token endpoint answers with
    [td]: a refresh token provided in [td] replaces the stored one, and
    without one (absent, or empty) the stored refresh token stays what it
    was; seller id and connection time are untouched, the access token
    is the new one. The same credential is what [save] persists. *)
Theorem refresh_token_rotation td r w' :
  reply env (log w) (Routes.refresh_request config a) = Js.Resolved td ->
  run env (Routes.ensureValidAccessToken config user) w = (r, w') ->
  exists a',
    docs w' !! user = Some {| user_id := user_id doc; amazonAuth := Some a' |}
    /\ (Js.truthy (refresh_token td) = true ->
        refreshToken a' = refresh_token td)
    /\ (Js.truthy (refresh_token td) = false ->
        refreshToken a' = refreshToken a)
    /\ accessToken a' = access_token td
    /\ sellerId a' = sellerId a
    /\ connectedAt a' = connectedAt a
    /\ match r with
       | Returned tok =>
           tok = access_token td /\
           db w' !! user_id doc
           = Some {| user_id := user_id doc; amazonAuth := Some a' |}
       | _ => db w' = db w
       end.
Proof.
  intros Hreply Hrun.
  pose proof ensure_refresh_path as Hpath. cbn zeta in Hpath.
  rewrite Hreply, Hrun in Hpath.
  eexists (Routes.refreshed _ td a).
  destruct (reply env _ (Save user)) as [e |];
    injection Hpath as -> ->; cbn;
    rewrite !lookup_insert_eq; unfold Routes.refreshed; cbn;
    repeat split; try reflexivity;
    intros ->; reflexivity.
Qed.

(** C1, as amended. With the client configuration complete, one
    invocation on a loaded user whose linked credential has an access
    token and a refresh token and is less than five minutes from expiry
    (strictly: now > expiry - 5 min) issues exactly one refresh call. *)
Theorem single_invocation_one_refresh r w' :
  run env (Routes.ensureValidAccessToken config user) w = (r, w') ->
  refresh_calls (log w') = S (refresh_calls (log w)).
Proof.
  intros Hrun.
  pose proof ensure_refresh_path as Hpath. cbn zeta in Hpath.
  rewrite Hrun in Hpath.
  destruct (reply env (log w) _) as [td | e].
  - destruct (reply env _ (Save user)) as [e |];
      injection Hpath as -> ->; cbn [log];
      rewrite !refresh_calls_app; cbn; lia.
  - injection Hpath as -> ->. cbn [log].
    rewrite refresh_calls_app. cbn. lia.
Qed.

End Freshness.

Lemma ensure_fresh_no_refresh_witness :
  run (Scenario.token_env Scenario.fresh_tokens)
      (Routes.ensureValidAccessToken Scenario.config 0%nat)
      (Scenario.world 600000)
  = (Returned (Some "Atza|stored"), Scenario.world 600000).
Proof.
  apply (ensure_fresh_no_refresh Scenario.config
           (Scenario.token_env Scenario.fresh_tokens)
           (Scenario.world 600000) 0%nat
           (Scenario.seller 600000) (Scenario.credential 600000))
    with (expiry := Scenario.t0 + 600000).
  - vm_compute. reflexivity.
  - reflexivity.
  - reflexivity.
  - reflexivity.
  - vm_compute. reflexivity.
Defined.

Lemma refresh_token_rotation_witness :
  exists a',
    refreshToken a' = Some "Atzr|stored" /\
    accessToken a' = Some "Atza|fresh" /\
    sellerId a' = Some "A1SELLER".
Proof.
  destruct (refresh_token_rotation Scenario.config
              (Scenario.token_env Scenario.fresh_tokens)
              (Scenario.world 60000) 0%nat
              (Scenario.seller 60000) (Scenario.credential 60000)
              ltac:(vm_compute; reflexivity) ltac:(reflexivity)
              ltac:(reflexivity) ltac:(vm_compute; reflexivity)
              ltac:(reflexivity) ltac:(reflexivity)
              Scenario.fresh_tokens _ _
              ltac:(reflexivity) ltac:(reflexivity))
    as (a' & _ & _ & Hkeep & Htok & Hseller & _).
  exists a'. split; [apply Hkeep; reflexivity |]. split; assumption.
Defined.

Lemma single_invocation_one_refresh_witness :
  refresh_calls
    (log (snd (run (Scenario.token_env Scenario.rotated_tokens)
                 (Routes.ensureValidAccessToken Scenario.config 0%nat)
                 (Scenario.world 60000))))
  = 1%nat.
Proof.
  apply (single_invocation_one_refresh Scenario.config
           (Scenario.token_env Scenario.rotated_tokens)
           (Scenario.world 60000) 0%nat
           (Scenario.seller 60000) (Scenario.credential 60000)
           ltac:(vm_compute; reflexivity) ltac:(reflexivity)
           ltac:(reflexivity) ltac:(vm_compute; reflexivity)
           ltac:(reflexivity) ltac:(reflexivity)
           (fst (run (Scenario.token_env Scenario.rotated_tokens)
                   (Routes.ensureValidAccessToken Scenario.config 0%nat)
                   (Scenario.world 60000)))).
  apply surjective_pairing.
Defined.

(** C1 fails on the code. With the expiry exactly five minutes away no
    refresh call is issued at all; and two handlers that share one stale
    credential and are both started before either refresh settles issue
    one refresh call each: nothing serializes refresh-and-persist. *)
Lemma no_single_flight :
  refresh_calls
    (log (snd (run (Scenario.token_env Scenario.fresh_tokens)
                 (Routes.ensureValidAccessToken Scenario.config 0%nat)
                 (Scenario.world 300000))))
  = 0%nat
  /\
  let caller := Routes.ensureValidAccessToken Scenario.config 0%nat in
  let env := Scenario.token_env Scenario.fresh_tokens in
  let '(pending, w1) := start env [caller; caller] (Scenario.world 60000) in
  let '(finished, w2) := schedule env [0; 1; 0; 1]%nat pending w1 in
  finished = [Ret (Some "Atza|fresh"); Ret (Some "Atza|fresh")]
  /\ refresh_calls (log w2) = 2%nat.
Proof. vm_compute. repeat split; reflexivity. Qed.

(** The same two handlers one after the other: the second finds the
    credential the first one refreshed, and a single call is issued. *)
Example serialized_callers_refresh_once :
  let caller := Routes.ensureValidAccessToken Scenario.config 0%nat in
  let env := Scenario.token_env Scenario.fresh_tokens in
  let '(_, w1) := run env caller (Scenario.world 60000) in
  let '(r2, w2) := run env caller w1 in
  r2 = Returned (Some "Atza|fresh") /\ refresh_calls (log w2) = 1%nat.
Proof. vm_compute. split; reflexivity. Qed.

(** ** Calendar dates: printing and reading back *)

Lemma all_below_spec f n :
  all_below f n = true -> forall i, 0 <= i < Z.of_N n -> f i = true.
Proof.
  unfold all_below.
  assert (snd (N.iter n (fun '(ok, i) => (ok && f i, i + 1)) (true, 0)) = Z.of_N n /\
          (fst (N.iter n (fun '(ok, i) => (ok && f i, i + 1)) (true, 0)) = true ->
           forall i, 0 <= i < Z.of_N n -> f i = true)) as H.
  { induction n as [| n [IH1 IH2]] using N.peano_ind.
    - cbn. split; [reflexivity | intros _ i Hi; lia].
    - rewrite N.iter_succ.
      destruct (N.iter n _ _) as [ok j]. cbn in *. subst j.
      split; [lia |].
      intros Hok i Hi. apply andb_true_iff in Hok as [Hok Hfn].
      destruct (Z.eq_dec i (Z.of_N n)) as [-> | Hne]; [assumption |].
      apply IH2; [assumption | lia]. }
  apply H.
Qed.

(** Expose the first characters of an append to pattern matching. *)
Ltac string_head :=
  repeat match goal with
    | |- context [String ?c ?a +:+ ?b] =>
        change (String c a +:+ b) with (String c (a +:+ b))
    | |- context [EmptyString +:+ ?b] =>
        change (EmptyString +:+ b) with b
    end.

Module DateFacts.
Import JsDate.

Lemma era_checked doe : 0 <= doe < days_per_era -> era_check doe = true.
Proof.
  intros H. apply (all_below_spec era_check 146097).
  - vm_compute. reflexivity.
  - exact H.
Qed.

Lemma pad4_checked n : 0 <= n < 10000 -> pad_check 4 n = true.
Proof.
  intros H. apply (all_below_spec (pad_check 4) 10000).
  - vm_compute. reflexivity.
  - exact H.
Qed.

Lemma pad2_checked n : 0 <= n < 100 -> pad_check 2 n = true.
Proof.
  intros H. apply (all_below_spec (pad_check 2) 100).
  - vm_compute. reflexivity.
  - exact H.
Qed.

Lemma pad_check_spec w n :
  pad_check w n = true ->
  String.length (JsNum.pad w n) = w /\ digits_value 0 (JsNum.pad w n) = Some n.
Proof.
  unfold pad_check. intros H. apply andb_true_iff in H as [Hlen Hval].
  apply Nat.eqb_eq in Hlen. split; [assumption |].
  destruct (digits_value 0 (JsNum.pad w n)) as [v |]; [| discriminate].
  apply Z.eqb_eq in Hval. congruence.
Qed.

(** A day number and its calendar date determine each other. *)
Lemma civil_roundtrip z :
  let '(y, m, d) := civil_from_days z in
  days_from_civil y m d = z /\ 1 <= m <= 12 /\ 1 <= d <= 31
  /\ (0 <= z < 2932897 -> 0 <= y <= 9999).
Proof.
  unfold civil_from_days, days_from_civil.
  set (z1 := z + 719468).
  pose proof (Z.mod_pos_bound z1 days_per_era ltac:(reflexivity)) as Hdoe.
  pose proof (Z.div_mod z1 days_per_era ltac:(discriminate)) as Hz1.
  pose proof (era_checked _ Hdoe) as Hchk. unfold era_check in Hchk.
  destruct (era_fields (z1 mod days_per_era)) as [[y m] d].
  repeat (apply andb_true_iff in Hchk as [Hchk ?]).
  set (era := z1 / days_per_era) in *.
  set (doe := z1 mod days_per_era) in *.
  assert (Hyoe : (if m <=? 2 then y + era * 400 - 1 else y + era * 400)
                 = era * 400 + (if m <=? 2 then y - 1 else y))
    by (destruct (m <=? 2); lia).
  rewrite Hyoe.
  set (yoe := if m <=? 2 then y - 1 else y) in *.
  assert (0 <= yoe < 400) as Hy by lia.
  rewrite (Z.add_comm (era * 400) yoe), Z.div_add, Z.mod_add by discriminate.
  rewrite Z.div_small, Z.mod_small by assumption.
  split; [| split; [lia | split; [lia |]]].
  - assert (era_day yoe m d = doe) by lia. unfold days_per_era in *. lia.
  - intros Hz. unfold days_per_era in *.
    assert (y - 1 <= yoe <= y) by (subst yoe; destruct (m <=? 2); lia).
    subst z1. clearbody era doe yoe.
    assert (4 <= era <= 24) by lia.
    assert (era = 24 -> doe < 146037) by lia.
    apply orb_true_iff in H as [Hlate | Hyear].
    + apply Z.leb_le in Hlate. lia.
    + apply Z.leb_le in Hyear. lia.
Qed.

(** Setting the day of the month [k] days back moves the time back by
    [k] whole days. *)
Lemma with_date_back t k :
  with_date t (DateFromTime t - k) = t - k * ms_per_day.
Proof.
  unfold with_date, DateFromTime.
  pose proof (civil_roundtrip (t / ms_per_day)) as H.
  destruct (civil_from_days (t / ms_per_day)) as [[y m] d].
  destruct H as (Hd & _).
  assert (days_from_civil y m 1 = days_from_civil y m d - d + 1) as ->
      by (unfold days_from_civil, era_day; lia).
  rewrite Hd. unfold ms_per_day in *.
  pose proof (Z.div_mod t 86400000 ltac:(lia)). lia.
Qed.

Lemma split_at_app a b n :
  String.length a = n -> split_at n (a +:+ b) = (a, b).
Proof.
  intros <-. induction a as [| c a IH].
  - destruct b; reflexivity.
  - change (String c a +:+ b) with (String c (a +:+ b)). cbn.
    rewrite IH. reflexivity.
Qed.

Local Arguments split_at : simpl never.

(** Reading a printed date gives back midnight of its day. *)
Lemma parse_toISODate t :
  0 <= t < 253402300800000 ->
  parse (toISODate t) = Some (t / ms_per_day * ms_per_day).
Proof.
  intros Ht. unfold toISODate.
  pose proof (civil_roundtrip (t / ms_per_day)) as Hciv.
  destruct (civil_from_days (t / ms_per_day)) as [[y m] d].
  destruct Hciv as (Hback & Hm & Hd & Hy).
  assert (0 <= t / ms_per_day < 2932897) as Hday.
  { unfold ms_per_day. split.
    - apply Z.div_pos; lia.
    - apply Z.div_lt_upper_bound; lia. }
  specialize (Hy Hday).
  unfold year_string.
  replace ((0 <=? y) && (y <=? 9999)) with true by (symmetry; apply andb_true_iff; lia).
  destruct (pad_check_spec 4 y (pad4_checked y ltac:(lia))) as [Hly Hvy].
  destruct (pad_check_spec 2 m (pad2_checked m ltac:(lia))) as [Hlm Hvm].
  destruct (pad_check_spec 2 d (pad2_checked d ltac:(lia))) as [Hld Hvd].
  assert (Hplain : forall rest,
             parse (JsNum.pad 4 y +:+ rest)
             = date_only 4 1 (JsNum.pad 4 y +:+ rest)).
  { intros rest. destruct (JsNum.pad 4 y) as [| c r]; [discriminate Hly |].
    cbn [digits_value] in Hvy.
    destruct (digit_value c) eqn:Hc; [| discriminate Hvy].
    clear - Hc. revert Hc.
    destruct c as [[] [] [] [] [] [] [] []]; intros Hc;
      try discriminate Hc; reflexivity. }
  rewrite Hplain. unfold date_only.
  rewrite (split_at_app (JsNum.pad 4 y) _ 4 Hly).
  string_head. cbn.
  rewrite (split_at_app (JsNum.pad 2 m) _ 2 Hlm).
  string_head. cbn.
  rewrite Hld, Hvy, Hvm, Hvd. cbn.
  replace ((1 <=? m) && (m <=? 12) && (1 <=? d) && (d <=? 31)) with true
    by (symmetry; rewrite !andb_true_iff; lia).
  rewrite Z.mul_1_l, Hback. reflexivity.
Qed.

End DateFacts.

(** ** Sorting with a comparator that subtracts keys *)

Section SortMembers.
Context {A : Type} (compare : A -> A -> Z).

Lemma sort_insert_In x l y :
  In y (sort_insert compare x l) <-> y = x \/ In y l.
Proof.
  induction l as [| z l IH]; cbn.
  - intuition (subst; auto).
  - destruct (compare x z <=? 0); cbn; [intuition (subst; auto) |].
    rewrite IH. intuition (subst; auto).
Qed.

Lemma array_sort_In l y : In y (array_sort compare l) <-> In y l.
Proof.
  induction l as [| x l IH]; cbn; [reflexivity |].
  rewrite sort_insert_In, IH. intuition (subst; auto).
Qed.

Lemma sort_insert_length x l :
  length (sort_insert compare x l) = S (length l).
Proof.
  induction l as [| z l IH]; cbn; [reflexivity |].
  destruct (compare x z <=? 0); cbn; congruence.
Qed.

Lemma array_sort_length l : length (array_sort compare l) = length l.
Proof.
  induction l as [| x l IH]; cbn; [reflexivity |].
  rewrite sort_insert_length. f_equal. exact IH.
Qed.

End SortMembers.

Section SortFacts.
Context {A : Type} (compare : A -> A -> Z) (key : A -> Z).

Lemma sort_insert_sorted x l :
  (forall y, In y l -> compare x y = key y - key x) ->
  StronglySorted (descending key) l ->
  StronglySorted (descending key) (sort_insert compare x l).
Proof.
  intros Hcmp Hs. induction Hs as [| z l Hs IH Hz]; cbn.
  - repeat constructor.
  - rewrite (Hcmp z) by (left; reflexivity).
    destruct (key z - key x <=? 0) eqn:Hle.
    + apply Z.leb_le in Hle. constructor; [constructor; assumption |].
      constructor; [unfold descending; lia |].
      rewrite List.Forall_forall in Hz |- *. intros y Hy.
      specialize (Hz y Hy). unfold descending in *. lia.
    + apply Z.leb_gt in Hle. constructor.
      * apply IH. intros y Hy. apply Hcmp. right. assumption.
      * rewrite List.Forall_forall in Hz |- *. intros y Hy.
        apply (proj1 (sort_insert_In compare x l y)) in Hy as [-> | Hy].
        -- unfold descending. lia.
        -- apply Hz. assumption.
Qed.

Lemma array_sort_sorted l :
  (forall a b, In a l -> In b l -> compare a b = key b - key a) ->
  StronglySorted (descending key) (array_sort compare l).
Proof.
  induction l as [| x l IH]; intros Hcmp.
  - constructor.
  - change (array_sort compare (x :: l))
      with (sort_insert compare x (array_sort compare l)).
    apply sort_insert_sorted.
    + intros y Hy. apply (proj1 (array_sort_In compare l y)) in Hy.
      apply Hcmp; [left; reflexivity | right; assumption].
    + apply IH. intros a b Ha Hb. apply Hcmp; right; assumption.
Qed.
End SortFacts.

(** ** The synthetic order set *)

Module MockFacts.
Import SpApi.

Local Arguments JsNum.floor_times : simpl never.
Local Arguments JsNum.toFixed2 : simpl never.
Local Arguments JsNum.amount_hundredths : simpl never.
Local Arguments JsDate.toISODate : simpl never.
Local Arguments JsDate.with_date : simpl never.
Local Arguments JsDate.DateFromTime : simpl never.
Local Arguments Js.new_Date : simpl never.
Local Arguments Js.toUpperCase : simpl never.
Local Arguments substring : simpl never.
Local Arguments Z.mul : simpl never.
Local Arguments Z.add : simpl never.
Local Arguments Z.sub : simpl never.
Local Arguments Z.modulo : simpl never.
Local Arguments Z.ltb : simpl never.

(** Rounding to a double does not carry a product with a draw past the
    next integer: for a factor up to 32 the rounded product stays below
    [n * 2^53]. *)
Lemma round53_below m n :
  0 <= m -> 0 < n <= 32 -> m <= n * JsNum.random_scale - n ->
  0 <= JsNum.round53 m < n * JsNum.random_scale.
Proof.
  intros Hm Hn Hle. unfold JsNum.random_scale in *.
  change (2 ^ 53) with 9007199254740992 in *.
  destruct (Z.eq_dec m 0) as [-> | Hpos];
    [change (JsNum.round53 0) with 0; lia |].
  pose proof (Z.log2_spec m ltac:(lia)) as [Hlo Hhi].
  assert (Z.log2 m < 58) as Hlog
      by (apply Z.log2_lt_pow2; [lia |]; change (2 ^ 58) with 288230376151711744; lia).
  pose proof (Z.log2_nonneg m) as Hnn.
  unfold JsNum.round53.
  destruct (Z.log2 m - 52 <=? 0) eqn:Hs; [lia |].
  apply Z.leb_gt in Hs.
  assert (Z.log2 m = 53 \/ Z.log2 m = 54 \/ Z.log2 m = 55 \/ Z.log2 m = 56
          \/ Z.log2 m = 57) as Hcase by lia.
  destruct Hcase as [E | [E | [E | [E | E]]]]; rewrite E in *;
    cbn [Z.sub Z.add Z.opp Z.pos_sub Pos.succ Z.succ_double Z.pred_double
           Z.double Pos.pred_double] in *;
    match goal with
    | |- context [2 ^ ?s] =>
        let v := eval vm_compute in (2 ^ s) in change (2 ^ s) with v in *
    end;
    match goal with
    | H : 2 ^ ?s <= m |- _ =>
        let v := eval vm_compute in (2 ^ s) in change (2 ^ s) with v in H
    end;
    match goal with
    | |- context [if ?c then _ else _] => destruct c eqn:Hup
    end;
    try (apply orb_false_iff in Hup as [Hup _]; apply Z.ltb_ge in Hup);
    try (apply orb_true_iff in Hup as [Hup | Hup];
         [apply Z.ltb_lt in Hup
         | apply andb_true_iff in Hup as [Hup _]; apply Z.eqb_eq in Hup]);
    Z.to_euclidean_division_equations; lia.
Qed.

Lemma floor_times_range k n :
  0 < n <= 32 ->
  0 <= JsNum.floor_times (k mod JsNum.random_scale) n < n.
Proof.
  intros Hn. unfold JsNum.floor_times.
  assert (0 < JsNum.random_scale) as Hs by reflexivity.
  pose proof (Z.mod_pos_bound k JsNum.random_scale Hs) as Hk.
  pose proof (round53_below (k mod JsNum.random_scale * n) n
                ltac:(nia) Hn ltac:(nia)) as Hr.
  split.
  - apply Z.div_pos; lia.
  - apply Z.div_lt_upper_bound; lia.
Qed.

Lemma status_drawn k :
  exists s, statuses !! Z.to_nat (JsNum.floor_times (k mod JsNum.random_scale) 4)
            = Some s /\ In s statuses.
Proof.
  pose proof (floor_times_range k 4 ltac:(lia)) as H.
  set (j := JsNum.floor_times _ 4) in *.
  assert (j = 0 \/ j = 1 \/ j = 2 \/ j = 3) as [-> | [-> | [-> | ->]]] by lia;
    cbn; eexists; (split; [reflexivity |]); cbn; tauto.
Qed.

(** Moving the date back asks the host for its offset twice and leaves
    the world as it is. *)
Lemma setDate_back_run env t back w :
  run env (setDate_back t back) w
  = (Returned
       (let offset := reply env [] (LocalTZA t true) in
        let newDate := t + offset - back * JsDate.ms_per_day in
        Js.new_Date (newDate - reply env [] (LocalTZA newDate false))),
     w).
Proof.
  unfold setDate_back. cbn. rewrite DateFacts.with_date_back. reflexivity.
Qed.

(** On a host with one offset the date is [back] whole days before. *)
Lemma setDate_back_steady env t back w :
  steady_zone env ->
  run env (setDate_back t back) w
  = (Returned (Js.new_Date (t - back * JsDate.ms_per_day)), w).
Proof.
  intros [offset Hz]. rewrite setDate_back_run. cbn zeta. rewrite !Hz.
  do 3 f_equal. lia.
Qed.

Lemma new_Date_era t back :
  JsDate.four_digit_era t -> 0 <= back < 30 ->
  Js.new_Date (t - back * JsDate.ms_per_day)
  = Some (t - back * JsDate.ms_per_day).
Proof.
  unfold JsDate.four_digit_era, JsDate.ms_per_day, Js.new_Date,
    Js.max_time_value.
  intros Ht Hb. destruct (Z.leb_spec (Z.abs (t - back * 86400000))
                            8640000000000000); [reflexivity | lia].
Qed.

(** The loop of the generator ends, whatever is drawn and whatever the
    host's zone: with between 5 and 24 records, or with the range error
    of a date that left the range of time values. Nothing but draws
    leaves the process and no time passes. *)
Lemma mock_loop_run env fuel :
  forall i acc w,
    0 <= i <= 24 ->
    Z.of_nat (length acc) = i ->
    25 <= i + Z.of_nat fuel ->
    exists r extra,
      run env (mock_loop fuel i acc) w
      = (r, {| clock := clock w; docs := docs w; db := db w;
               log := log w ++ extra |})
      /\ Forall draw extra
      /\ match r with
         | Returned l =>
             exists new, l = acc ++ new
               /\ (5 <= length l <= 24)%nat
               /\ Forall has_status new
               /\ (steady_zone env -> Forall (synthetic (clock w)) new)
         | Thrown e =>
             e = RangeError
             /\ ~ (steady_zone env /\ JsDate.four_digit_era (clock w))
         | Diverged => False
         end.
Proof.
  induction fuel as [| fuel IH]; intros i acc w Hi Hlen Hfuel; [lia |].
  cbn [mock_loop]. rewrite run_bind. cbn [call run perform].
  unfold logged. cbn [log clock docs db].
  set (b := reply env (log w) MathRandom).
  pose proof (floor_times_range b 20 ltac:(lia)) as Hb.
  destruct (i <? JsNum.floor_times (b mod JsNum.random_scale) 20 + 5) eqn:Hgo.
  2: { apply Z.ltb_ge in Hgo. cbn [run].
       exists (Returned acc), [ {| request := MathRandom; failure := None |} ].
       split; [reflexivity |]. split; [repeat constructor |].
       exists []. rewrite app_nil_r.
       split; [reflexivity |]. split; [lia |]. split; constructor. }
  apply Z.ltb_lt in Hgo.
  rewrite run_bind. cbn [call run perform clock].
  rewrite run_bind. cbn [call run perform]. unfold logged. cbn [log clock docs db].
  set (d1 := {| request := MathRandom; failure := None |}).
  match goal with
  | |- context [JsNum.floor_times (?k mod _) 30] => set (back := k)
  end.
  pose proof (floor_times_range back 30 ltac:(lia)) as Hback.
  rewrite run_bind, setDate_back_run. cbn zeta. cbn [clock log].
  match goal with
  | |- context [Js.new_Date ?x] => set (u := x)
  end.
  rewrite run_bind. cbn [call run perform]. unfold logged. cbn [log clock docs db].
  rewrite run_bind. cbn [call run perform]. cbn [log clock docs db].
  destruct (Js.new_Date u) as [t |] eqn:Hdate.
  2: { cbn [run]. exists (Thrown RangeError), [d1; d1; d1].
       split; [rewrite <- !app_assoc; reflexivity |].
       split; [repeat constructor |]. split; [reflexivity |].
       intros [[offset Hz] Hera]. unfold u in Hdate. rewrite !Hz in Hdate.
       replace (clock w + offset
                - JsNum.floor_times (back mod JsNum.random_scale) 30
                  * JsDate.ms_per_day - offset)
         with (clock w - JsNum.floor_times (back mod JsNum.random_scale) 30
                         * JsDate.ms_per_day) in Hdate by lia.
       rewrite new_Date_era in Hdate by assumption.
       discriminate. }
  rewrite run_bind. cbn [call run perform]. unfold logged. cbn [log clock docs db].
  rewrite run_bind. cbn [call run perform]. unfold logged. cbn [log clock docs db].
  match goal with
  | |- context [run env (mock_loop fuel (i + 1) (acc ++ [?o])) ?w'] =>
      set (o' := o);
      destruct (IH (i + 1) (acc ++ [o']) w') as (r & extra & Hrun & Hdraws & Hr)
  end.
  - lia.
  - rewrite length_app. cbn. lia.
  - lia.
  - cbn [clock docs db log] in Hrun, Hr. rewrite Hrun.
    exists r, ([d1; d1; d1; d1; d1] ++ extra).
    split; [rewrite <- !app_assoc; reflexivity |].
    split; [apply Forall_app; split; [repeat constructor | assumption] |].
    destruct r as [l | e |]; [| exact Hr | exact Hr].
    destruct Hr as (new & -> & Hn & Hst & Hsyn).
    exists (o' :: new). rewrite <- app_assoc in *.
    split; [reflexivity |]. split; [assumption |].
    split; [constructor; [apply status_drawn | assumption] |].
    intros Hz. constructor; [| apply Hsyn; assumption].
    split; [apply status_drawn |].
    exists (JsNum.floor_times (back mod JsNum.random_scale) 30).
    split; [assumption |]. cbn [orderDate o'].
    destruct Hz as [offset Hz]. unfold u in Hdate. rewrite !Hz in Hdate.
    unfold Js.new_Date in Hdate.
    destruct (Z.abs _ <=? _) in Hdate; [| discriminate].
    injection Hdate as <-. f_equal. lia.
Qed.

Lemma synthetic_dated now o :
  JsDate.four_digit_era now ->
  synthetic now o ->
  exists t, JsDate.parse (orderDate o) = Some t
            /\ now - 30 * JsDate.ms_per_day < t <= now.
Proof.
  intros [Hlo Hhi] (_ & back & Hback & ->).
  unfold JsDate.ms_per_day in *.
  rewrite DateFacts.parse_toISODate by (unfold JsDate.ms_per_day; lia).
  eexists. split; [reflexivity |].
  unfold JsDate.ms_per_day.
  pose proof (Z.div_mod (now - back * 86400000) 86400000 ltac:(lia)) as Hdm.
  pose proof (Z.mod_pos_bound (now - back * 86400000) 86400000 ltac:(lia)).
  lia.
Qed.

Lemma sorted_dated now l :
  JsDate.four_digit_era now ->
  Forall (synthetic now) l ->
  StronglySorted (descending SpApi.date_key) l ->
  StronglySorted dated_not_before l.
Proof.
  intros Hera Hall Hs. induction Hs as [| o l Hs IH Ho]; [constructor |].
  apply Forall_cons in Hall as [Hsyn Hall].
  constructor; [apply IH; assumption |].
  rewrite List.Forall_forall in Ho |- *. intros o' Hin.
  specialize (Ho o' Hin). unfold descending, SpApi.date_key in Ho.
  destruct (synthetic_dated now o Hera Hsyn) as (t & Ht & _).
  assert (synthetic now o') as Hsyn'
    by (rewrite List.Forall_forall in Hall; apply Hall; assumption).
  destruct (synthetic_dated now o' Hera Hsyn') as (t' & Ht' & _).
  rewrite Ht, Ht' in Ho. cbn in Ho.
  exists t, t'. auto.
Qed.

(** The generator ends, whatever is drawn: with between 5 and 24
    records, each with a status of the generator's list, or with a range
    error. On a host with one offset and in the four-digit era it
    returns records of the synthetic shape, the newest first. Nothing but
    draws leaves the process and no time passes. *)
Lemma generate_run env w :
  exists r extra,
    run env generateMockOrderData w = (r, after w 0 extra)
    /\ Forall draw extra
    /\ r <> Diverged
    /\ (forall l, r = Returned l ->
                  (5 <= length l <= 24)%nat /\ Forall has_status l)
    /\ (forall e, r = Thrown e -> e = RangeError)
    /\ (steady_zone env -> JsDate.four_digit_era (clock w) ->
        exists l, r = Returned l /\ synthetic_set (clock w) l).
Proof.
  destruct (mock_loop_run env 25 0 [] w) as (r & extra & Hrun & Hd & Hr);
    [lia | reflexivity | lia |].
  unfold generateMockOrderData. rewrite run_bind, Hrun.
  assert (Hafter : {| clock := clock w; docs := docs w; db := db w;
                      log := log w ++ extra |} = after w 0 extra)
    by (unfold after; rewrite Z.add_0_r; reflexivity).
  rewrite Hafter.
  destruct r as [l | e |]; [| | contradiction]; cbn [run].
  - destruct Hr as (new & -> & Hn & Hst & Hsyn). cbn [app] in *.
    exists (Returned (array_sort by_date_desc new)), extra.
    split; [reflexivity |]. split; [assumption |]. split; [discriminate |].
    assert (Hmem : forall P, Forall P new ->
                             Forall P (array_sort by_date_desc new)).
    { intros P HP. rewrite List.Forall_forall in HP |- *. intros o Ho.
      apply HP. apply (proj1 (array_sort_In by_date_desc new o)). exact Ho. }
    split; [intros l' [= <-]; rewrite array_sort_length; auto |].
    split; [discriminate |].
    { intros Hz Hera. eexists. split; [reflexivity |].
      specialize (Hsyn Hz).
      split; [apply Hmem; assumption |].
      split; [rewrite array_sort_length; lia |].
      intros _. apply (sorted_dated (clock w)); [assumption | auto |].
      apply array_sort_sorted. intros a b Ha Hb.
      rewrite List.Forall_forall in Hsyn.
      destruct (synthetic_dated _ a Hera (Hsyn a Ha)) as (ta & Hta & _).
      destruct (synthetic_dated _ b Hera (Hsyn b Hb)) as (tb & Htb & _).
      unfold by_date_desc, JsDate.minus, SpApi.date_key. rewrite Hta, Htb.
      reflexivity. }
  - exists (Thrown e), extra.
    split; [reflexivity |]. split; [assumption |]. split; [discriminate |].
    split; [discriminate |]. destruct Hr as [-> Hr].
    split; [intros e' [= <-]; reflexivity |].
    intros Hz Hera. exfalso. apply Hr. auto.
Qed.

End MockFacts.

(** ** The order retrieval pipeline, step by step *)

Lemma after_nothing w : after w 0 [] = w.
Proof.
  destruct w. unfold after. cbn. rewrite Z.add_0_r, app_nil_r. reflexivity.
Qed.

Lemma after_after w d1 e1 d2 e2 :
  after (after w d1 e1) d2 e2 = after w (d1 + d2) (e1 ++ e2).
Proof. unfold after. cbn. rewrite Z.add_assoc, app_assoc. reflexivity. Qed.

Lemma page_requests_app l1 l2 :
  page_requests (l1 ++ l2) = (page_requests l1 + page_requests l2)%nat.
Proof. unfold page_requests. rewrite List.filter_app, length_app. reflexivity. Qed.

Lemma no_page_requests l :
  Forall (fun e => is_page_request (request e) = false) l ->
  page_requests l = 0%nat.
Proof.
  induction 1 as [| e l He _ IH]; [reflexivity |].
  change (e :: l) with ([e] ++ l). rewrite page_requests_app, IH.
  unfold page_requests. cbn. rewrite He. reflexivity.
Qed.

Lemma not_orders_not_page q :
  is_orders_request q = false -> is_page_request q = false.
Proof. destruct q; cbn; congruence. Qed.

Lemma draws_no_page_requests l : Forall draw l -> page_requests l = 0%nat.
Proof.
  intros H. apply no_page_requests. eapply List.Forall_impl; [| exact H].
  intros e [He _]. rewrite He. reflexivity.
Qed.

Lemma other_no_page_requests l :
  Forall (fun e => is_orders_request (request e) = false) l ->
  page_requests l = 0%nat.
Proof.
  intros H. apply no_page_requests. eapply List.Forall_impl; [| exact H].
  intros e He. apply not_orders_not_page. exact He.
Qed.

Module Pipeline.
Import SpApi.

Section WithEnv.
Variables (env : Env) (config : Config).

Local Arguments getMarketplaceId : simpl never.
Local Arguments getBaseUrl : simpl never.
Local Arguments Z.mul : simpl never.
Local Arguments Z.add : simpl never.
Local Arguments Z.sub : simpl never.
Local Arguments Nat.ltb : simpl never.

Lemma getBaseUrl_cases :
  (exists base, getBaseUrl config = Ret base)
  \/ (exists e, getBaseUrl config = Throw e).
Proof.
  unfold getBaseUrl.
  repeat match goal with
         | |- context [if ?c then _ else _] => destruct c
         end; eauto.
Qed.

(** The access check: one order request for a single result; any
    failure, also of the configuration, reads as "no access". *)
Lemma checkOrdersApiAccess_run accessToken w :
  exists ok dt gate,
    run env (checkOrdersApiAccess config accessToken) w
    = (Returned ok, after w dt gate)
    /\ Forall (fun e => is_orders_request (request e) = true
                        /\ is_page_request (request e) = false
                        /\ (ok = true -> failure e = None)
                        /\ (forall url h p, request e = GetOrders url h p ->
                            x_amz_access_token h = accessToken)) gate
    /\ (ok = true -> gate <> [])
    /\ ((forall url h p, MaxResultsPerPage p = 1 -> exists d,
           reply env (log w) (GetOrders url h p) = Js.Resolved d) ->
        (exists base, getBaseUrl config = Ret base) -> ok = true)
    /\ (ok = true -> exists base, getBaseUrl config = Ret base)
    /\ (ok = false -> gate = [] \/ exists e err, gate = [e] /\ failure e = Some err).
Proof.
  unfold checkOrdersApiAccess. rewrite run_try_catch, run_bind.
  destruct getBaseUrl_cases as [[base Hb] | [e Hb]]; rewrite Hb; cbn.
  - unfold logged. cbn.
    match goal with
    | |- context [reply env (log w) ?q] =>
        set (req := q); destruct (reply env (log w) req) as [d | err] eqn:Hr
    end; cbn.
    + exists true, (elapsed env (log w) req),
        [ {| request := req; failure := None |} ].
      split; [reflexivity |].
      split; [constructor; [| constructor]; cbn; repeat split;
              intros url h p [= <- <- <-]; reflexivity |].
      split; [discriminate |]. split; [reflexivity |].
      split; [eauto | discriminate].
    + exists false, (elapsed env (log w) req),
        [ {| request := req; failure := Some err |} ].
      split; [reflexivity |].
      split; [constructor; [| constructor]; cbn; repeat split;
              [discriminate | intros url h p [= <- <- <-]; reflexivity] |].
      split; [discriminate |].
      split; [intros Hok _; exfalso;
              destruct (Hok (base +:+ "/orders/v0/orders")
                          (plain_headers accessToken)
                          {| MarketplaceIds := getMarketplaceId config;
                             CreatedAfter := clock w - 24 * 60 * 60 * 1000;
                             CreatedBefore := None;
                             MaxResultsPerPage := 1;
                             NextTokenParam := None |} eq_refl)
                as [d' Hd']; fold req in Hd'; congruence |].
      split; [discriminate |]. intros _. right. eauto.
  - exists false, 0, []. rewrite after_nothing.
    split; [reflexivity |]. split; [constructor |].
    split; [discriminate |].
    split; [intros _ [base Hbase]; congruence |].
    split; [discriminate | auto].
Qed.

(** The restricted-data token step never throws: every failure comes
    back as an absent token. *)
Lemma getRestrictedDataToken_run accessToken w :
  exists token dt traffic,
    run env (getRestrictedDataToken config accessToken) w
    = (Returned token, after w dt traffic)
    /\ Forall (fun e => is_orders_request (request e) = false) traffic
    /\ ((forall url h, exists e,
           reply env (log w) (PostRestrictedDataToken url h) = Js.Rejected e) ->
        token = None).
Proof.
  unfold getRestrictedDataToken. rewrite run_try_catch.
  destruct (Js.truthy accessToken); cbn.
  - rewrite run_bind.
    destruct getBaseUrl_cases as [[base Hb] | [e Hb]]; rewrite Hb; cbn.
    + unfold logged. cbn.
      match goal with
      | |- context [reply env (log w) ?q] =>
          set (req := q); destruct (reply env (log w) req) as [d | err] eqn:Hr
      end; cbn.
      * exists d, (elapsed env (log w) req),
          [ {| request := req; failure := None |} ].
        split; [reflexivity |]. split; [repeat constructor |].
        intros Hrej. exfalso.
        destruct (Hrej _ _ : exists e, reply env (log w) req = _) as [e He].
        congruence.
      * exists None, (elapsed env (log w) req),
          [ {| request := req; failure := Some err |} ].
        split; [reflexivity |]. split; [repeat constructor | auto].
    + exists None, 0, []. rewrite after_nothing.
      split; [reflexivity |]. split; [constructor | auto].
  - exists None, 0, []. rewrite after_nothing.
    split; [reflexivity |]. split; [constructor | auto].
Qed.

(** The participation probe absorbs its failures too. *)
Lemma getSellerProfile_run accessToken w :
  exists n ok dt traffic,
    run env (getSellerProfile config accessToken) w
    = (Returned (n, ok), after w dt traffic)
    /\ Forall (fun e => is_orders_request (request e) = false) traffic
    /\ match getBaseUrl config with
       | Ret base =>
           let q := GetMarketplaceParticipations
                      (base +:+ "/sellers/v1/marketplaceParticipations")
                      (plain_headers accessToken) in
           ok = match reply env (log w) q with
                | Js.Resolved _ => true
                | Js.Rejected _ => false
                end
       | _ => ok = false
       end.
Proof.
  unfold getSellerProfile. rewrite run_try_catch, run_bind.
  destruct getBaseUrl_cases as [[base Hb] | [e Hb]]; rewrite Hb; cbn.
  - unfold logged. cbn.
    match goal with
    | |- context [reply env (log w) ?q] =>
        set (req := q); destruct (reply env (log w) req) as [d | err] eqn:Hr
    end; cbn.
    + exists (default 0%nat d), true, (elapsed env (log w) req),
        [ {| request := req; failure := None |} ].
      split; [reflexivity |]. split; [repeat constructor | reflexivity].
    + exists 0%nat, false, (elapsed env (log w) req),
        [ {| request := req; failure := Some err |} ].
      split; [reflexivity |]. split; [repeat constructor | reflexivity].
  - exists 0%nat, false, 0, []. rewrite after_nothing.
    split; [reflexivity |]. split; [constructor | reflexivity].
Qed.

Lemma page_traffic_get accessToken restrictedToken url p f :
  MaxResultsPerPage p = 50 ->
  page_traffic accessToken restrictedToken
    {| request := GetOrders url (orders_headers accessToken restrictedToken) p;
       failure := f |}.
Proof. intros H. unfold page_traffic. cbn. auto. Qed.

(** The pagination loop. Started with fewer than 200 orders and at
    least as much fuel as orders are missing to 200, it ends: with the
    accumulated orders, or with the error of the page that failed. *)
Lemma fetch_pages_run base accessToken restrictedToken createdAfter createdBefore :
  getBaseUrl config = Ret base ->
  forall fuel allOrders nextToken w,
    (200 <= fuel + length allOrders)%nat ->
    (length allOrders < 200)%nat ->
    exists r dt pages,
      run env (fetch_pages config fuel accessToken restrictedToken
                 createdAfter createdBefore allOrders nextToken) w
      = (r, after w dt pages)
      /\ Forall (page_traffic accessToken restrictedToken) pages
      /\ (1 <= page_requests pages)%nat
      /\ (page_requests pages + length allOrders <= 200)%nat
      /\ match r with
         | Returned l =>
             Forall (fun e => failure e = None) pages
             /\ (length allOrders <= length l)%nat
             /\ (forall n, pages_at_most env n -> (length l <= 199 + n)%nat)
         | Thrown err =>
             Exists (fun e => failure e = Some err) pages
             /\ Forall (fun e => failure e = None \/ failure e = Some err) pages
         | Diverged => False
         end.
Proof.
  intros Hbase. induction fuel as [| fuel IH];
    intros allOrders nextToken w Hfuel Hlen; [lia |].
  cbn [fetch_pages]. rewrite run_bind, Hbase. cbn [run].
  rewrite run_bind. unfold await. cbn [run perform].
  match goal with
  | |- context [reply env (log w) ?q] =>
      set (req := q); destruct (reply env (log w) req) as [payload | err] eqn:Hr
  end; cbn -[fetch_pages].
  2: { exists (Thrown err), (elapsed env (log w) req),
         [ {| request := req; failure := Some err |} ].
       split; [reflexivity |].
       split; [constructor; [apply page_traffic_get; reflexivity | constructor] |].
       split; [cbn; lia |]. split; [cbn; lia |].
       split; [left; reflexivity |].
       constructor; [right; reflexivity | constructor]. }
  assert (Hstop :
    exists r dt pages,
      (Returned allOrders,
       {| clock := clock w + elapsed env (log w) req; docs := docs w;
          db := db w; log := logged req (Js.Resolved payload) w |})
      = (r, after w dt pages)
      /\ Forall (page_traffic accessToken restrictedToken) pages
      /\ (1 <= page_requests pages)%nat
      /\ (page_requests pages + length allOrders <= 200)%nat
      /\ match r with
         | Returned l =>
             Forall (fun e => failure e = None) pages
             /\ (length allOrders <= length l)%nat
             /\ (forall n, pages_at_most env n -> (length l <= 199 + n)%nat)
         | Thrown err =>
             Exists (fun e => failure e = Some err) pages
             /\ Forall (fun e => failure e = None \/ failure e = Some err) pages
         | Diverged => False
         end).
  { exists (Returned allOrders), (elapsed env (log w) req),
      [ {| request := req; failure := None |} ].
    split; [reflexivity |].
    split; [constructor; [apply page_traffic_get; reflexivity | constructor] |].
    split; [cbn; lia |]. split; [cbn; lia |].
    split; [repeat constructor |]. split; [lia |]. intros n _. lia. }
  destruct (payload ≫= Orders) as [[| o os] |] eqn:Horders;
    [exact Hstop | | exact Hstop].
  clear Hstop.
  set (orders := o :: os) in *.
  set (allOrders' := allOrders ++ orders).
  assert (length allOrders' = (length allOrders + S (length os))%nat) as Hlen'
    by (subst allOrders' orders; rewrite length_app; reflexivity).
  assert (Hpage : forall n, pages_at_most env n -> (S (length os) <= n)%nat).
  { intros n Hn. destruct payload as [pl |]; [| discriminate].
    cbn in Horders. apply (Hn _ _ _ _ _ _ Hr Horders). }
  set (w1 := {| clock := clock w + elapsed env (log w) req; docs := docs w;
                db := db w; log := logged req (Js.Resolved payload) w |}).
  change w1 with (after w (elapsed env (log w) req)
                    [ {| request := req; failure := None |} ]).
  set (first := {| request := req; failure := None |}).
  assert (page_traffic accessToken restrictedToken first) as Hfirst
    by (apply page_traffic_get; reflexivity).
  destruct (Js.truthy (or_null (payload ≫= NextToken))) eqn:Hnext; cbn -[fetch_pages].
  - (* a cursor came back: pause, then look at the total *)
    unfold logged. cbn -[fetch_pages].
    set (pause := {| request := SetTimeout 100; failure := None |}).
    match goal with
    | |- context [run env _ ?w2] =>
        change w2 with (after (after w (elapsed env (log w) req) [first])
                          (elapsed env (log w ++ [first]) (SetTimeout 100))
                          [pause])
    end.
    rewrite after_after.
    destruct (length allOrders' <? 200)%nat eqn:Hmore.
    + apply Nat.ltb_lt in Hmore.
      match goal with
      | |- context [run env (fetch_pages _ _ _ _ _ _ _ ?nt) ?w2] =>
          destruct (IH allOrders' nt w2 ltac:(lia) Hmore)
            as (r & dt & pages & Hrun & Htraffic & Hone & Hcount & Hr')
      end.
      rewrite Hrun, after_after.
      exists r, (elapsed env (log w) req
                 + elapsed env (log w ++ [first]) (SetTimeout 100) + dt),
        (([first] ++ [pause]) ++ pages).
      split; [reflexivity |].
      split; [repeat (apply Forall_app; split); try assumption;
              repeat constructor; assumption |].
      rewrite !page_requests_app.
      split; [cbn; lia |]. split; [cbn in *; lia |].
      destruct r as [l | err' |]; [| | exact Hr'].
      * destruct Hr' as (Hok & Hl & Hbound).
        split; [repeat (apply Forall_app; split); try assumption;
                repeat constructor |].
        split; [lia | exact Hbound].
      * destruct Hr' as (Hex & Hall).
        split; [apply Exists_app; right; assumption |].
        repeat (apply Forall_app; split); try assumption;
          repeat constructor; left; reflexivity.
    + apply Nat.ltb_ge in Hmore. cbn.
      exists (Returned allOrders'),
        (elapsed env (log w) req
         + elapsed env (log w ++ [first]) (SetTimeout 100)),
        ([first] ++ [pause]).
      split; [reflexivity |].
      split; [repeat constructor; assumption |].
      split; [cbn; lia |]. split; [cbn; lia |].
      split; [repeat constructor |]. split; [lia |].
      intros n Hn. specialize (Hpage n Hn). lia.
  - (* no cursor: the loop ends with this page *)
    exists (Returned allOrders'), (elapsed env (log w) req), [first].
    split; [reflexivity |].
    split; [repeat constructor; assumption |].
    split; [cbn; lia |]. split; [cbn; lia |].
    split; [repeat constructor |]. split; [lia |].
    intros n Hn. specialize (Hpage n Hn). lia.
Qed.

Lemma recent_orders_body_unfold accessToken w :
  run env (recent_orders_body config accessToken) w =
  if negb (Js.truthy accessToken)
  then (Thrown (Js.new_Error "Access token is required"), w)
  else
    match run env (checkOrdersApiAccess config accessToken) w with
    | (Returned true, w1) =>
        match run env (getRestrictedDataToken config accessToken) w1 with
        | (Returned restrictedToken, w2) =>
            match run env (fetch_pages config 200 accessToken restrictedToken
                             (clock w1 - 30 * JsDate.ms_per_day) (clock w1)
                             [] None) w2 with
            | (Returned allOrders, w3) =>
                (Returned (map formatOrder allOrders), w3)
            | (Thrown e, w3) => (Thrown e, w3)
            | (Diverged, w3) => (Diverged, w3)
            end
        | (Thrown e, w2) => (Thrown e, w2)
        | (Diverged, w2) => (Diverged, w2)
        end
    | (Returned false, w1) => run env generateMockOrderData w1
    | (Thrown e, w1) => (Thrown e, w1)
    | (Diverged, w1) => (Diverged, w1)
    end.
Proof.
  unfold recent_orders_body.
  destruct (negb (Js.truthy accessToken)); [reflexivity |].
  rewrite run_bind.
  destruct (run env (checkOrdersApiAccess config accessToken) w)
    as [[[|] | e |] w1]; try reflexivity.
  cbn [negb]. rewrite run_bind. cbn [call run perform].
  rewrite run_bind.
  destruct (run env (getRestrictedDataToken config accessToken) w1)
    as [[rt | e |] w2]; try reflexivity.
  rewrite run_bind.
  destruct (run env (fetch_pages _ _ _ _ _ _ _ _) w2) as [[l | e |] w3];
    reflexivity.
Qed.

(** The [catch] block: only a 403 leads to the probe, and only a
    probe that answers leads to the synthetic set. *)
Lemma recent_orders_catch_run accessToken err w :
  exists r dt tail,
    run env (recent_orders_catch config accessToken err) w
    = (r, after w dt tail)
    /\ Forall (fun e => is_orders_request (request e) = false) tail
    /\ r <> Diverged
    /\ (Js.status_is err 403 = false ->
        r = Thrown (classify "Failed to get recent orders: " err))
    /\ (Js.status_is err 403 = true ->
        (forall history url h, exists d,
            reply env history (GetMarketplaceParticipations url h)
            = Js.Resolved d) ->
        (exists base, getBaseUrl config = Ret base) ->
        steady_zone env -> JsDate.four_digit_era (clock w + dt) ->
        exists l, r = Returned l /\ synthetic_set (clock w + dt) l)
    /\ (Js.status_is err 403 = true ->
        (forall history url h, exists e,
            reply env history (GetMarketplaceParticipations url h)
            = Js.Rejected e) ->
        r = Thrown permission_error)
    /\ (forall l, r = Returned l -> (length l <= 24)%nat).
Proof.
  unfold recent_orders_catch.
  destruct (Js.status_is err 403) eqn:H403.
  - rewrite run_bind.
    destruct (getSellerProfile_run accessToken w)
      as (n & ok & dt & traffic & Hrun & Htraffic & Hok).
    rewrite Hrun. cbn [snd].
    destruct ok.
    + destruct (MockFacts.generate_run env (after w dt traffic))
      as (r & draws & Hgen & Hdraws & Hend & Hshape & _ & Hset).
    rewrite Hgen, after_after.
    exists r, (dt + 0), (traffic ++ draws).
    split; [reflexivity |].
    split; [apply Forall_app; split; [assumption |];
            eapply List.Forall_impl; [| exact Hdraws];
            intros e [He _]; rewrite He; reflexivity |].
    split; [assumption |].
    split; [discriminate |].
    split; [intros _ _ _ Hz Hera;
            replace (clock w + (dt + 0)) with (clock (after w dt traffic))
              in * by (cbn; lia); apply Hset; assumption |].
    split.
    * intros _ Hrej. exfalso.
      destruct (getBaseUrl config) as [base | | |]; try discriminate.
      cbn zeta in Hok.
      destruct (Hrej (log w) (base +:+ "/sellers/v1/marketplaceParticipations")
                  (plain_headers accessToken)) as [e He].
      rewrite He in Hok. discriminate.
    * intros l' ->. apply Hshape. reflexivity.
  + cbn [run]. exists (Thrown permission_error), dt, traffic.
      split; [reflexivity |]. split; [assumption |].
      split; [discriminate |]. split; [discriminate |].
      split; [| split; [reflexivity | discriminate]].
      intros _ Hok' [base Hbase] _ _. exfalso. rewrite Hbase in Hok.
      cbn zeta in Hok.
      destruct (Hok' (log w) (base +:+ "/sellers/v1/marketplaceParticipations")
                  (plain_headers accessToken)) as [d Hd].
      rewrite Hd in Hok. discriminate.
  - cbn [run]. exists (Thrown (classify "Failed to get recent orders: " err)), 0, [].
    rewrite after_nothing.
    split; [reflexivity |]. split; [constructor |].
    split; [discriminate |]. split; [reflexivity |].
    repeat split; discriminate.
Qed.

End WithEnv.
End Pipeline.

(** ** Pagination *)

Module Pagination.
Import SpApi Pipeline.

Section WithEnv.
Variables (env : Env) (config : Config).

Local Arguments getMarketplaceId : simpl never.
Local Arguments getBaseUrl : simpl never.
Local Arguments Z.mul : simpl never.
Local Arguments Z.add : simpl never.
Local Arguments Z.sub : simpl never.
Local Arguments Nat.ltb : simpl never.
Local Arguments Js.truthy : simpl never.

(** Every run of [getRecentOrders] ends; it asks for at most 200
    pages, and what it returns is bounded by the size of the pages. *)
Lemma recent_orders_end accessToken sellerId w :
  exists r dt extra,
    run env (getRecentOrders config accessToken sellerId) w
    = (r, after w dt extra)
    /\ r <> Diverged
    /\ (page_requests extra <= 200)%nat
    /\ (forall n l, pages_at_most env n -> r = Returned l ->
                    (length l <= Nat.max 24 (199 + n))%nat).
Proof.
  unfold getRecentOrders.
  rewrite run_try_catch, recent_orders_body_unfold.
  destruct (negb (Js.truthy accessToken)).
  { destruct (recent_orders_catch_run env config accessToken
                (Js.new_Error "Access token is required") w)
      as (r & dt & tail & Hrun & Htail & Hnd & _ & _ & _ & Hlen).
    rewrite Hrun. exists r, dt, tail. split; [reflexivity |].
    split; [assumption |]. split.
    - rewrite (other_no_page_requests tail Htail). lia.
    - intros n l _ ->. specialize (Hlen l eq_refl). lia. }
  destruct (checkOrdersApiAccess_run env config accessToken w)
    as (ok & dt0 & gate & Hgate & Hg & _ & _ & Hbase & _).
  rewrite Hgate.
  assert (page_requests gate = 0%nat) as Hgate0.
  { apply no_page_requests. eapply List.Forall_impl; [| exact Hg].
    intros e (_ & He & _). exact He. }
  destruct ok.
  - destruct (Hbase eq_refl) as [base Hb].
    destruct (getRestrictedDataToken_run env config accessToken (after w dt0 gate))
      as (rt & dt1 & traffic & Hrdt & Htraffic & _).
    rewrite Hrdt, after_after.
    assert (page_requests traffic = 0%nat) as Hrdt0
      by (apply other_no_page_requests; assumption).
    destruct (fetch_pages_run env config base accessToken rt
                (clock (after w dt0 gate) - 30 * JsDate.ms_per_day)
                (clock (after w dt0 gate)) Hb 200 [] None
                (after w (dt0 + dt1) (gate ++ traffic))
                ltac:(cbn; lia) ltac:(cbn; lia))
      as (r & dt2 & pages & Hrun & _ & _ & Hcount & Hr).
    rewrite Hrun, after_after. cbn in Hcount.
    destruct r as [l | err |]; [| | contradiction].
    + exists (Returned (map formatOrder l)), (dt0 + dt1 + dt2),
        ((gate ++ traffic) ++ pages).
      split; [reflexivity |]. split; [discriminate |].
      rewrite !page_requests_app. split; [lia |].
      intros n l' Hn [= <-]. rewrite length_map.
      destruct Hr as (_ & _ & Hbound). specialize (Hbound n Hn). lia.
    + destruct (recent_orders_catch_run env config accessToken err
                  (after w (dt0 + dt1 + dt2) ((gate ++ traffic) ++ pages)))
        as (r & dt3 & tail & Hcatch & Htail & Hnd & _ & _ & _ & Hlen).
      rewrite Hcatch, after_after.
      exists r, (dt0 + dt1 + dt2 + dt3), (((gate ++ traffic) ++ pages) ++ tail).
      split; [reflexivity |]. split; [assumption |].
      rewrite !page_requests_app. split.
      * rewrite (other_no_page_requests tail Htail). lia.
      * intros n l _ ->. specialize (Hlen l eq_refl). lia.
  - destruct (MockFacts.generate_run env (after w dt0 gate))
      as (r & draws & Hgen & Hdraws & Hend & Hshape & _).
    rewrite Hgen.
    destruct r as [l | err |]; [| | contradiction].
    + rewrite after_after.
      exists (Returned l), (dt0 + 0), (gate ++ draws).
      split; [reflexivity |]. split; [discriminate |].
      rewrite page_requests_app. split.
      * rewrite (draws_no_page_requests draws Hdraws). lia.
      * intros n l' _ [= <-]. destruct (Hshape l eq_refl). lia.
    + destruct (recent_orders_catch_run env config accessToken err
                  (after (after w dt0 gate) 0 draws))
        as (r & dt3 & tail & Hcatch & Htail & Hnd & _ & _ & _ & Hlen).
      rewrite Hcatch, !after_after.
      exists r, (dt0 + (0 + dt3)), (gate ++ draws ++ tail).
      split; [reflexivity |]. split; [assumption |].
      rewrite !page_requests_app. split.
      * rewrite (draws_no_page_requests draws Hdraws),
          (other_no_page_requests tail Htail). lia.
      * intros n l _ ->. specialize (Hlen l eq_refl). lia.
Qed.

(** With full pages and a cursor on each, the loop stops at 200:
    [k] requests take it there from [200 - 50 k] orders. *)
Lemma full_pages_run base accessToken restrictedToken createdAfter createdBefore :
  getBaseUrl config = Ret base ->
  full_pages env ->
  forall k fuel allOrders nextToken w,
    (length allOrders + 50 * k = 200)%nat ->
    (1 <= k <= fuel)%nat ->
    exists l dt pages,
      run env (fetch_pages config fuel accessToken restrictedToken
                 createdAfter createdBefore allOrders nextToken) w
      = (Returned l, after w dt pages)
      /\ length l = 200%nat
      /\ page_requests pages = k.
Proof.
  intros Hbase Hfull. induction k as [| k IH];
    intros fuel allOrders nextToken w Hlen Hk; [lia |].
  destruct fuel as [| fuel]; [lia |].
  cbn [fetch_pages]. rewrite run_bind, Hbase. cbn [run].
  rewrite run_bind. unfold await. cbn [run perform].
  match goal with
  | |- context [reply env (log w) (GetOrders ?u ?h ?p)] =>
      destruct (Hfull (log w) u h p eq_refl)
        as (orders & cursor & Hr & Hsize & Hcur);
      set (req := GetOrders u h p) in *
  end.
  rewrite Hr. cbn -[fetch_pages].
  destruct orders as [| o os]; [discriminate |].
  unfold or_null. rewrite Hcur. cbn -[fetch_pages].
  rewrite Hcur. cbn -[fetch_pages]. unfold logged. cbn -[fetch_pages].
  set (first := {| request := req; failure := None |}).
  set (pause := {| request := SetTimeout 100; failure := None |}).
  match goal with
  | |- context [run env _ ?w2] =>
      change w2 with (after (after w (elapsed env (log w) req) [first])
                        (elapsed env (log w ++ [first]) (SetTimeout 100))
                        [pause])
  end.
  rewrite after_after.
  assert (length (allOrders ++ o :: os) = (length allOrders + 50)%nat) as Hnew
    by (rewrite length_app, Hsize; reflexivity).
  destruct (length (allOrders ++ o :: os) <? 200)%nat eqn:Hmore.
  - apply Nat.ltb_lt in Hmore.
    match goal with
    | |- context [run env (fetch_pages _ _ _ _ _ _ ?acc ?nt) ?w2] =>
        destruct (IH fuel acc nt w2 ltac:(lia) ltac:(lia))
          as (l & dt & pages & Hrun & Hl & Hp)
    end.
    rewrite Hrun, after_after.
    eexists l, _, (([first] ++ [pause]) ++ pages).
    split; [reflexivity |]. split; [assumption |].
    rewrite !page_requests_app, Hp. reflexivity.
  - apply Nat.ltb_ge in Hmore. cbn [run].
    eexists _, _, ([first] ++ [pause]).
    split; [reflexivity |]. split; [lia |].
    assert (k = 0%nat) as -> by lia. reflexivity.
Qed.

End WithEnv.
End Pagination.

(** C2, as amended. For every upstream behaviour [getRecentOrders] ends,
    after at most 200 page requests; the orders it returns number at most
    [199 + n] when no page holds more than [n] of them (24 bounds the
    synthetic set), so up to 249 for pages of 50, not at most 200. With
    an access token, a valid region and an access check that is
    answered, when every page request is answered with exactly 50 orders
    and a cursor, exactly 4 pages are requested and 200 orders
    returned. *)
Theorem pagination_bounded env config accessToken sellerId w :
  (exists r dt extra,
      run env (SpApi.getRecentOrders config accessToken sellerId) w
      = (r, after w dt extra)
      /\ r <> Diverged
      /\ (page_requests extra <= 200)%nat
      /\ (forall n l, pages_at_most env n -> r = Returned l ->
                      (length l <= Nat.max 24 (199 + n))%nat))
  /\ (access_check_answered env ->
      full_pages env ->
      Js.truthy accessToken = true ->
      (exists base, SpApi.getBaseUrl config = Ret base) ->
      exists l dt extra,
        run env (SpApi.getRecentOrders config accessToken sellerId) w
        = (Returned l, after w dt extra)
        /\ length l = 200%nat
        /\ page_requests extra = 4%nat).
Proof.
  split; [apply Pagination.recent_orders_end |].
  intros Hcheck Hfull Htok [base Hbase].
  unfold SpApi.getRecentOrders.
  rewrite run_try_catch, Pipeline.recent_orders_body_unfold, Htok. cbn [negb].
  destruct (Pipeline.checkOrdersApiAccess_run env config accessToken w)
    as (ok & dt0 & gate & Hgate & Hg & _ & Hopen & _).
  assert (ok = true) as ->
      by (apply Hopen; [intros url h p Hp; apply Hcheck; exact Hp | eauto]).
  rewrite Hgate.
  destruct (Pipeline.getRestrictedDataToken_run env config accessToken
              (after w dt0 gate)) as (rt & dt1 & traffic & Hrdt & Htraffic & _).
  rewrite Hrdt, after_after.
  destruct (Pagination.full_pages_run env config base accessToken rt
              (clock (after w dt0 gate) - 30 * JsDate.ms_per_day)
              (clock (after w dt0 gate)) Hbase Hfull 4%nat 200%nat [] None
              (after w (dt0 + dt1) (gate ++ traffic))
              ltac:(reflexivity) ltac:(lia))
    as (l & dt2 & pages & Hrun & Hl & Hp).
  rewrite Hrun, after_after.
  eexists _, _, _. split; [reflexivity |].
  split; [rewrite length_map; assumption |].
  rewrite !page_requests_app, Hp.
  assert (page_requests gate = 0%nat) as ->.
  { apply no_page_requests. eapply List.Forall_impl; [| exact Hg].
    intros e (_ & He & _). exact He. }
  assert (page_requests traffic = 0%nat) as ->; [| reflexivity].
  apply no_page_requests. eapply List.Forall_impl; [| exact Htraffic].
  intros e He. apply not_orders_not_page. exact He.
Qed.

Lemma pagination_bounded_witness :
  exists l dt extra,
    run Scenario.busy_seller
        (SpApi.getRecentOrders Scenario.config Scenario.token Scenario.sellerId)
        (Scenario.world 600000)
    = (Returned l, after (Scenario.world 600000) dt extra)
    /\ length l = 200%nat
    /\ page_requests extra = 4%nat.
Proof.
  apply (proj2 (pagination_bounded Scenario.busy_seller Scenario.config
                  Scenario.token Scenario.sellerId (Scenario.world 600000))).
  - intros history url h p Hp. eexists. reflexivity.
  - intros history url h p Hp.
    exists (repeat Scenario.sample_order 50), "cursor".
    cbn. rewrite Hp. repeat split; reflexivity.
  - reflexivity.
  - eexists. reflexivity.
Defined.

(** C2 fails on the code where it says "at most 200": with pages of 30
    orders, each with a cursor, the loop stops only after the seventh
    page, at 210 accumulated orders. *)
Lemma cap_overshoot :
  let '(r, w') :=
    run (Scenario.paging_env 30)
        (SpApi.getRecentOrders Scenario.config Scenario.token Scenario.sellerId)
        (Scenario.world 600000) in
  match r with
  | Returned l => length l = 210%nat
  | _ => False
  end
  /\ page_requests (log w') = 7%nat.
Proof. vm_compute. split; reflexivity. Qed.

(** ** Permission failures and the synthetic fallback *)



Module Fallback.
Import SpApi Pipeline.

Section WithEnv.
Variables (env : Env) (config : Config).


End WithEnv.
End Fallback.









(** C8. When the restricted-data token cannot be had, whatever the
    failure, the acquirer returns an absent token and throws nothing, and
    every order request of [getRecentOrders] carries the base access
    token; if the access check passes, the page requests do go out. *)
Theorem restricted_token_best_effort env config accessToken sellerId w :
  restricted_token_fails env ->
  (exists w1,
      run env (SpApi.getRestrictedDataToken config accessToken) w
      = (Returned None, w1))
  /\ exists r dt extra,
      run env (SpApi.getRecentOrders config accessToken sellerId) w
      = (r, after w dt extra)
      /\ Forall (fun e => forall url h p,
                     request e = GetOrders url h p ->
                     x_amz_access_token h = accessToken) extra
      /\ (Js.truthy accessToken = true ->
          (exists base, SpApi.getBaseUrl config = Ret base) ->
          (forall url h p, MaxResultsPerPage p = 1 -> exists d,
              reply env (log w) (GetOrders url h p) = Js.Resolved d) ->
          (1 <= page_requests extra)%nat).
Proof.
  intros Hfails. split.
  { destruct (Pipeline.getRestrictedDataToken_run env config accessToken w)
      as (token & dt & traffic & Hrun & _ & Hnone).
    rewrite (Hnone (Hfails (log w))) in Hrun. eauto. }
  assert (Hother : forall l,
             Forall (fun e => is_orders_request (request e) = false) l ->
             Forall (fun e => forall url h p,
                         request e = GetOrders url h p ->
                         x_amz_access_token h = accessToken) l).
  { intros l Hl. eapply List.Forall_impl; [| exact Hl].
    intros e He url h p Hreq. cbn beta in He. rewrite Hreq in He.
    discriminate. }
  unfold SpApi.getRecentOrders.
  rewrite run_try_catch, Pipeline.recent_orders_body_unfold.
  destruct (Js.truthy accessToken) eqn:Htok; cbn [negb].
  2: { destruct (Pipeline.recent_orders_catch_run env config accessToken
                   (Js.new_Error "Access token is required") w)
         as (r & dt & tail & Hrun & Htail & _).
       rewrite Hrun. exists r, dt, tail. split; [reflexivity |].
       split; [auto | discriminate]. }
  destruct (Pipeline.checkOrdersApiAccess_run env config accessToken w)
    as (ok & dt0 & gate & Hgate & Hg & _ & Hopen & Hbase & _).
  rewrite Hgate.
  assert (Hgate_tok : Forall (fun e => forall url h p,
                                  request e = GetOrders url h p ->
                                  x_amz_access_token h = accessToken) gate).
  { eapply List.Forall_impl; [| exact Hg]. intros e (_ & _ & _ & He). exact He. }
  destruct ok.
  2: { destruct (MockFacts.generate_run env (after w dt0 gate))
         as (r & draws & Hgen & Hdraws & Hend & _).
       rewrite Hgen.
       assert (Hdraws_tok : Forall (fun e => forall url h p,
                                        request e = GetOrders url h p ->
                                        x_amz_access_token h = accessToken)
                                   draws).
       { eapply List.Forall_impl; [| exact Hdraws].
         intros e [He _] url h p Hreq. congruence. }
       destruct r as [l | err |]; [| | contradiction].
       - rewrite after_after.
         exists (Returned l), (dt0 + 0), (gate ++ draws).
         split; [reflexivity |]. split.
         + apply Forall_app. split; assumption.
         + intros _ Hb Hg1. specialize (Hopen Hg1 Hb). discriminate.
       - destruct (Pipeline.recent_orders_catch_run env config accessToken err
                     (after (after w dt0 gate) 0 draws))
           as (r & dt3 & tail & Hcatch & Htail & _).
         rewrite Hcatch, !after_after.
         exists r, (dt0 + (0 + dt3)), (gate ++ draws ++ tail).
         split; [reflexivity |]. split.
         + repeat (apply Forall_app; split); auto.
         + intros _ Hb Hg1. specialize (Hopen Hg1 Hb). discriminate. }
  destruct (Hbase eq_refl) as [base Hb].
  destruct (Pipeline.getRestrictedDataToken_run env config accessToken
              (after w dt0 gate)) as (rt & dt1 & traffic & Hrdt & Htraffic & Hnone).
  rewrite (Hnone (Hfails _)) in *. clear Hnone.
  rewrite Hrdt, after_after.
  destruct (Pipeline.fetch_pages_run env config base accessToken None
              (clock (after w dt0 gate) - 30 * JsDate.ms_per_day)
              (clock (after w dt0 gate)) Hb 200 [] None
              (after w (dt0 + dt1) (gate ++ traffic))
              ltac:(cbn; lia) ltac:(cbn; lia))
    as (r & dt2 & pages & Hrun & Hpages & Hone & _ & Hr).
  rewrite Hrun, after_after.
  assert (Hpages_tok : Forall (fun e => forall url h p,
                                   request e = GetOrders url h p ->
                                   x_amz_access_token h = accessToken) pages).
  { eapply List.Forall_impl; [| exact Hpages].
    intros e He url h p Hreq. unfold page_traffic in He. rewrite Hreq in He.
    destruct He as [He _]. exact He. }
  destruct r as [l | err |]; [| | contradiction].
  - exists (Returned (map SpApi.formatOrder l)), (dt0 + dt1 + dt2),
      ((gate ++ traffic) ++ pages).
    split; [reflexivity |].
    split; [repeat (apply Forall_app; split); auto |].
    intros _ _ _. rewrite !page_requests_app. lia.
  - destruct (Pipeline.recent_orders_catch_run env config accessToken err
                (after w (dt0 + dt1 + dt2) ((gate ++ traffic) ++ pages)))
      as (r & dt3 & tail & Hcatch & Htail & _).
    rewrite Hcatch, after_after.
    exists r, (dt0 + dt1 + dt2 + dt3), (((gate ++ traffic) ++ pages) ++ tail).
    split; [reflexivity |].
    split; [repeat (apply Forall_app; split); auto |].
    intros _ _ _. rewrite !page_requests_app. lia.
Qed.

Lemma restricted_token_best_effort_witness :
  exists w1,
    run (Scenario.single_page_env [Scenario.sample_order])
        (SpApi.getRestrictedDataToken Scenario.config Scenario.token)
        (Scenario.world 600000)
    = (Returned None, w1).
Proof.
  apply (restricted_token_best_effort
           (Scenario.single_page_env [Scenario.sample_order])
           Scenario.config Scenario.token Scenario.sellerId
           (Scenario.world 600000)).
  intros history url h. eexists. reflexivity.
Defined.

(** C9. An upstream order with [OrderTotal] INR 450.00 is shown with the
    amount "INR 450.00"; one without [OrderTotal] with the marker "N/A",
    which is neither "0" nor empty. *)
Theorem amount_formatting (order : UpstreamOrder) :
  (OrderTotal order
   = Some {| CurrencyCode := Some "INR"; Amount := Some "450.00" |} ->
   amount (SpApi.formatOrder order) = "INR 450.00")
  /\ (OrderTotal order = None ->
      amount (SpApi.formatOrder order) = "N/A"
      /\ amount (SpApi.formatOrder order) <> "0"
      /\ amount (SpApi.formatOrder order) <> "").
Proof.
  unfold SpApi.formatOrder. cbn [amount]. split; intros ->.
  - reflexivity.
  - repeat split; discriminate.
Qed.

Lemma amount_formatting_witness :
  amount (SpApi.formatOrder Scenario.sample_order) = "INR 450.00"
  /\ amount (SpApi.formatOrder Scenario.order_without_total) = "N/A".
Proof.
  split.
  - apply (proj1 (amount_formatting Scenario.sample_order)). reflexivity.
  - apply (proj2 (amount_formatting Scenario.order_without_total)). reflexivity.
Defined.

(** ** The order count against the order list *)

Module Counting.
Import SpApi.

Section WithEnv.
Variables (env : Env) (config : Config).

Local Arguments getMarketplaceId : simpl never.
Local Arguments getBaseUrl : simpl never.
Local Arguments Z.mul : simpl never.
Local Arguments Z.add : simpl never.
Local Arguments Z.sub : simpl never.
Local Arguments Nat.ltb : simpl never.



End WithEnv.
End Counting.




(** ** The OAuth state: buffers, base64 and JSON *)

Lemma append_String c a b : String c a +:+ b = String c (a +:+ b).
Proof. reflexivity. Qed.

Lemma append_empty_l a : EmptyString +:+ a = a.
Proof. reflexivity. Qed.

Lemma append_empty_r a : a +:+ EmptyString = a.
Proof. induction a as [| c a IH]; [reflexivity |]. rewrite append_String, IH. reflexivity. Qed.

Lemma append_assoc a b c : (a +:+ b) +:+ c = a +:+ (b +:+ c).
Proof.
  induction a as [| x a IH]; [reflexivity |].
  rewrite !append_String, IH. reflexivity.
Qed.

Ltac all_bytes c :=
  destruct c as [[] [] [] [] [] [] [] []].

Module Utf8Facts.
Import Utf8.

Lemma byte_in_spec lo hi c :
  byte_in lo hi c = true <-> (lo <= N_of_ascii c <= hi)%N.
Proof. unfold byte_in. rewrite andb_true_iff, !N.leb_le. tauto. Qed.

Ltac by_range :=
  repeat match goal with
         | H : byte_in _ _ _ = true |- _ => apply byte_in_spec in H
         end;
  unfold start;
  repeat match goal with
         | |- context [(?a <=? ?b)%N] => destruct (N.leb_spec a b)
         | |- context [(?a =? ?b)%N] => destruct (N.eqb_spec a b)
         end; cbn [andb]; try reflexivity; try lia.

Lemma start_single c : byte_in 0 127 c = true -> start c = Single.
Proof. intros H. by_range. Qed.

Lemma start_two c : byte_in 194 223 c = true -> start c = Lead 1 128 191.
Proof. intros H. by_range. Qed.

Lemma start_three c :
  byte_in 224 239 c = true ->
  start c = Lead 2 (if (N_of_ascii c =? 224)%N then 160 else 128)
                   (if (N_of_ascii c =? 237)%N then 159 else 191).
Proof. intros H. by_range. Qed.

Lemma start_four c :
  byte_in 240 244 c = true ->
  start c = Lead 3 (if (N_of_ascii c =? 240)%N then 144 else 128)
                   (if (N_of_ascii c =? 244)%N then 143 else 191).
Proof. intros H. by_range. Qed.

(** The decoder reads well-formed bytes as they are. *)
Lemma decode_well_formed s :
  well_formed s -> decode EmptyString 0 128 191 s = s.
Proof.
  induction 1 as [| c s Hc _ IH | c1 c2 s H1 H2 _ IH
                  | c1 c2 c3 s H1 H2 H3 _ IH
                  | c1 c2 c3 c4 s H1 H2 H3 H4 _ IH].
  - reflexivity.
  - cbn [decode]. rewrite (start_single c Hc), IH. reflexivity.
  - cbn [decode]. rewrite (start_two c1 H1). cbn [decode].
    rewrite H2, IH. reflexivity.
  - cbn [decode]. rewrite (start_three c1 H1). cbn [decode].
    rewrite H2. cbn [decode]. rewrite H3, IH. reflexivity.
  - cbn [decode]. rewrite (start_four c1 H1). cbn [decode].
    rewrite H2. cbn [decode]. rewrite H3. cbn [decode].
    rewrite H4, IH. reflexivity.
Qed.

Lemma well_formed_app a b :
  well_formed a -> well_formed b -> well_formed (a +:+ b).
Proof.
  intros Ha Hb. induction Ha; rewrite ?append_String;
    [exact Hb | constructor; assumption ..].
Qed.

Lemma ascii_only_well_formed s : ascii_only s = true -> well_formed s.
Proof.
  induction s as [| c s IH]; cbn; [constructor |].
  rewrite andb_true_iff. intros [Hc Hs]. constructor; auto.
Qed.

End Utf8Facts.

Module Base64Facts.
Import Base64.

Lemma digits_checked : all_below digit_check 64 = true.
Proof. vm_compute. reflexivity. Qed.

Lemma unbase64_digit i :
  (i < 64)%N ->
  unbase64 (digit i) = Some i /\ Ascii.eqb (digit i) pad_char = false.
Proof.
  intros Hi.
  pose proof (all_below_spec _ _ digits_checked (Z.of_N i) ltac:(lia)) as H.
  unfold digit_check in H. rewrite N2Z.id in H.
  destruct (unbase64 (digit i)) as [j |]; [| discriminate].
  apply andb_true_iff in H. destruct H as [Hj Hp].
  apply N.eqb_eq in Hj. subst j. apply negb_true_iff in Hp. auto.
Qed.

Lemma sextets_digit i r :
  (i < 64)%N -> sextets (String (digit i) r) = i :: sextets r.
Proof.
  intros Hi. destruct (unbase64_digit i Hi) as [Hv Hp].
  cbn [sextets]. rewrite Hp, Hv. reflexivity.
Qed.

Ltac bound c :=
  let H := fresh "H" in
  pose proof (N_ascii_bounded c) as H;
  let n := fresh "n" in
  let E := fresh "E" in
  remember (N_of_ascii c) as n eqn:E.

Ltac arith := zify; Z.to_euclidean_division_equations; lia.

Lemma string_ind3 (P : string -> Prop) :
  P EmptyString ->
  (forall a, P (String a EmptyString)) ->
  (forall a b, P (String a (String b EmptyString))) ->
  (forall a b c r, P r -> P (String a (String b (String c r)))) ->
  forall s, P s.
Proof.
  intros H0 H1 H2 H3.
  fix IH 1.
  intros [| a [| b [| c r]]];
    [exact H0 | apply H1 | apply H2 | apply H3, IH].
Qed.

(** Decoding gives back the bytes that were encoded. *)
Lemma decode_encode s : decode (encode s) = s.
Proof.
  unfold decode. induction s as [| a | a b | a b c r IH] using string_ind3.
  - reflexivity.
  - cbn [encode]. pose proof (N_ascii_bounded a) as Ha.
    rewrite !sextets_digit by arith. cbn [sextets bytes_of].
    rewrite Ascii.eqb_refl. cbn [bytes_of].
    replace (N_of_ascii a / 4 * 4 + N_of_ascii a mod 4 * 16 / 16)%N
      with (N_of_ascii a) by arith.
    rewrite ascii_N_embedding. reflexivity.
  - cbn [encode]. pose proof (N_ascii_bounded a) as Ha.
    pose proof (N_ascii_bounded b) as Hb.
    rewrite !sextets_digit by arith. cbn [sextets bytes_of].
    rewrite Ascii.eqb_refl. cbn [bytes_of].
    replace (N_of_ascii a / 4 * 4
             + (N_of_ascii a mod 4 * 16 + N_of_ascii b / 16) / 16)%N
      with (N_of_ascii a) by arith.
    replace ((N_of_ascii a mod 4 * 16 + N_of_ascii b / 16) mod 16 * 16
             + N_of_ascii b mod 16 * 4 / 4)%N
      with (N_of_ascii b) by arith.
    rewrite !ascii_N_embedding. reflexivity.
  - cbn [encode]. pose proof (N_ascii_bounded a) as Ha.
    pose proof (N_ascii_bounded b) as Hb. pose proof (N_ascii_bounded c) as Hc.
    rewrite !sextets_digit by arith. cbn [bytes_of]. rewrite IH.
    replace (N_of_ascii a / 4 * 4
             + (N_of_ascii a mod 4 * 16 + N_of_ascii b / 16) / 16)%N
      with (N_of_ascii a) by arith.
    replace ((N_of_ascii a mod 4 * 16 + N_of_ascii b / 16) mod 16 * 16
             + (N_of_ascii b mod 16 * 4 + N_of_ascii c / 64) / 4)%N
      with (N_of_ascii b) by arith.
    replace ((N_of_ascii b mod 16 * 4 + N_of_ascii c / 64) mod 4 * 64
             + N_of_ascii c mod 64)%N
      with (N_of_ascii c) by arith.
    rewrite !ascii_N_embedding. reflexivity.
Qed.

End Base64Facts.

Module JsonFacts.
Import Json.

Lemma quote_app s t :
  quote s +:+ t = String dquote (quote_body s +:+ String dquote t).
Proof. unfold quote. rewrite append_String, append_assoc. reflexivity. Qed.

(** Reading an escaped character gives the character. *)
Lemma chars_escape c t :
  chars 0 (escape c +:+ t) = prepend (String c EmptyString) (chars 0 t).
Proof. all_bytes c; reflexivity. Qed.

(** Reading a quoted string gives the string and stops after its
    closing quote. *)
Lemma chars_quote_body s t :
  chars 0 (quote_body s +:+ String dquote t) = Some (s, t).
Proof.
  induction s as [| c s IH]; [reflexivity |].
  cbn [quote_body]. rewrite append_assoc, chars_escape, IH. reflexivity.
Qed.

Lemma escape_ascii c t :
  Utf8.byte_in 0 127 c = true ->
  Utf8.well_formed t -> Utf8.well_formed (escape c +:+ t).
Proof.
  intros Hc Ht. apply Utf8Facts.well_formed_app; [| exact Ht].
  apply Utf8Facts.ascii_only_well_formed. revert Hc.
  all_bytes c; intros Hc; try discriminate Hc; reflexivity.
Qed.

Lemma escape_high lo hi c :
  Utf8.byte_in lo hi c = true -> (128 <= lo)%N ->
  escape c = String c EmptyString.
Proof.
  intros Hc Hlo. apply Utf8Facts.byte_in_spec in Hc. unfold escape.
  repeat match goal with
         | |- context [(?a =? ?b)%N] => destruct (N.eqb_spec a b); [lia |]
         | |- context [(?a <? ?b)%N] => destruct (N.ltb_spec a b); [lia |]
         end.
  reflexivity.
Qed.

(** Quoting a well-formed text gives well-formed bytes. *)
Lemma quote_body_well_formed s t :
  Utf8.well_formed s -> Utf8.well_formed t ->
  Utf8.well_formed (quote_body s +:+ t).
Proof.
  intros Hs Ht.
  induction Hs as [| c s Hc _ IH | c1 c2 s H1 H2 _ IH
                   | c1 c2 c3 s H1 H2 H3 _ IH
                   | c1 c2 c3 c4 s H1 H2 H3 H4 _ IH];
    cbn [quote_body].
  - exact Ht.
  - rewrite append_assoc. apply escape_ascii; assumption.
  - rewrite (escape_high _ _ _ H1), (escape_high _ _ _ H2) by lia.
    rewrite !append_String. apply Utf8.wf_two; assumption.
  - assert (escape c2 = String c2 EmptyString) as ->
        by (eapply escape_high; [exact H2 |];
            destruct (N_of_ascii c1 =? 224)%N; lia).
    rewrite (escape_high _ _ _ H1), (escape_high _ _ _ H3) by lia.
    rewrite !append_String. apply Utf8.wf_three; assumption.
  - assert (escape c2 = String c2 EmptyString) as ->
        by (eapply escape_high; [exact H2 |];
            destruct (N_of_ascii c1 =? 240)%N; lia).
    rewrite (escape_high _ _ _ H1), (escape_high _ _ _ H3),
      (escape_high _ _ _ H4) by lia.
    rewrite !append_String. apply Utf8.wf_four; assumption.
Qed.

(** *** Numbers *)

Lemma digits_uint d c t :
  is_digit c = false ->
  digits (NilEmpty.string_of_uint d +:+ String c t)
  = (NilEmpty.string_of_uint d, String c t).
Proof.
  intros Hc. induction d; cbn [NilEmpty.string_of_uint];
    rewrite ?append_String, ?append_empty_l; cbn [digits];
    [rewrite Hc; reflexivity | rewrite IHd; reflexivity ..].
Qed.

Lemma uint_ascii d : Utf8.ascii_only (NilEmpty.string_of_uint d) = true.
Proof. induction d; cbn; auto. Qed.

(** The digits of a number have no leading zero. *)
Lemma to_uint_normal n : Decimal.unorm (N.to_uint n) = N.to_uint n.
Proof.
  rewrite <- (DecimalN.Unsigned.to_of (N.to_uint n)),
    DecimalN.Unsigned.of_to.
  reflexivity.
Qed.

Lemma nzhead_not_zero d u : Decimal.nzhead d <> Decimal.D0 u.
Proof. induction d; cbn; try discriminate. assumption. Qed.

(** A number is read back from its digits. *)
Lemma parse_natural n c t :
  0 <= n -> ends_number c = true ->
  parse_number (JsNum.decimal n +:+ String c t)
  = Some (Number n 0, String c t).
Proof.
  intros Hn Hc. unfold ends_number in Hc.
  rewrite !andb_true_iff, !negb_true_iff in Hc.
  destruct Hc as ((((Hd & Hdot) & He) & HE) & Hminus).
  unfold JsNum.decimal.
  pose proof (to_uint_normal (Z.to_N n)) as Hnorm.
  assert (Hval : digits_number
                   (NilEmpty.string_of_uint (N.to_uint (Z.to_N n))) = n).
  { unfold digits_number. rewrite NilEmpty.usu.
    rewrite DecimalN.Unsigned.of_to. lia. }
  assert (Hfrac : fraction (String c t) = Some (EmptyString, String c t)).
  { unfold fraction. revert Hdot. all_bytes c; intros Hdot;
      try discriminate Hdot; reflexivity. }
  assert (Hexp : exponent_part (String c t) = Some (0, String c t)).
  { unfold exponent_part. rewrite He, HE. reflexivity. }
  destruct (N.to_uint (Z.to_N n)) as [| d | d | d | d | d | d | d | d | d | d];
    cbn [NilEmpty.string_of_uint] in *; rewrite ?append_String.
  1: discriminate Hnorm.
  1: { assert (d = Decimal.Nil) as ->.
       { unfold Decimal.unorm in Hnorm. cbn [Decimal.nzhead] in Hnorm.
         destruct (Decimal.nzhead d) eqn:Hz; try discriminate Hnorm.
         - injection Hnorm as <-. reflexivity.
         - injection Hnorm as <-. exfalso. exact (nzhead_not_zero _ _ Hz). }
       cbn [NilEmpty.string_of_uint] in *. rewrite append_empty_l.
       unfold parse_number. cbn -[fraction exponent_part digits_number Z.sub].
       rewrite Hfrac, Hexp, append_empty_r, Hval. reflexivity. }
  all: unfold parse_number;
    match goal with
    | |- context [digits (String ?k ?s)] =>
        change (digits (String k s))
          with (let '(d0, r') := digits s in (String k d0, r'))
    end;
    rewrite (digits_uint _ _ _ Hd); cbn [String.eqb Ascii.eqb Bool.eqb];
    rewrite Hfrac, Hexp, append_empty_r, Hval; reflexivity.
Qed.

Lemma minus_not_digit t : digits (String "-" t) = (EmptyString, String "-" t).
Proof. reflexivity. Qed.

(** An integer is read back from its print. *)
Lemma parse_integer n c t :
  ends_number c = true ->
  parse_number (number n +:+ String c t) = Some (Number n 0, String c t).
Proof.
  intros Hc. unfold number. destruct (Z.ltb_spec n 0) as [Hneg | Hpos].
  - pose proof (parse_natural (- n) c t ltac:(lia) Hc) as H.
    rewrite append_String, append_empty_l, append_String.
    unfold parse_number in *.
    change (match String "-" (JsNum.decimal (- n) +:+ String c t) with
            | String "-" r => (true, r)
            | _ => (false, String "-" (JsNum.decimal (- n) +:+ String c t))
            end) with (true, JsNum.decimal (- n) +:+ String c t).
    assert (Hplain :
              match JsNum.decimal (- n) +:+ String c t with
              | String "-" r => (true, r)
              | _ => (false, JsNum.decimal (- n) +:+ String c t)
              end = (false, JsNum.decimal (- n) +:+ String c t)).
    { unfold JsNum.decimal.
      destruct (N.to_uint (Z.to_N (- n)));
        cbn [NilEmpty.string_of_uint]; rewrite ?append_String, ?append_empty_l;
        try reflexivity.
      unfold ends_number in Hc. revert Hc. all_bytes c; intros Hc;
        try discriminate Hc; reflexivity. }
    rewrite Hplain in H. cbv zeta beta iota in H |- *.
    destruct (match JsNum.decimal (- n) +:+ String c t with
              | String "0" r => ("0", r)
              | _ => digits (JsNum.decimal (- n) +:+ String c t)
              end) as [int s2].
    destruct (String.eqb int EmptyString); [discriminate H |].
    destruct (fraction s2) as [[frac s3] |]; [| discriminate H].
    destruct (exponent_part s3) as [[e s4] |]; [| discriminate H].
    injection H as Hm He' Hs. rewrite Hm, He', Hs.
    do 3 f_equal. lia.
  - apply parse_natural; [lia | assumption].
Qed.

End JsonFacts.

Module StateFacts.
Import Json OAuth.

Lemma state_json_shape userId timestamp :
  state_json userId timestamp
  = String "{" (String dquote ("userId" +:+ String dquote (String ":"
      (String dquote (quote_body userId +:+ String dquote (String ","
        (String dquote ("timestamp" +:+ String dquote (String ":"
          (number timestamp +:+ "}"))))))))))%string.
Proof.
  unfold state_json. rewrite !JsonFacts.quote_app. reflexivity.
Qed.

(** The state text is well-formed UTF-8 whenever the user id is. *)
Lemma state_json_well_formed userId timestamp :
  Utf8.well_formed userId -> Utf8.well_formed (state_json userId timestamp).
Proof.
  intros Hu. rewrite state_json_shape.
  repeat (apply Utf8.wf_one; [reflexivity |]).
  apply JsonFacts.quote_body_well_formed; [assumption |].
  repeat (apply Utf8.wf_one; [reflexivity |]).
  apply Utf8Facts.well_formed_app;
    [| apply Utf8Facts.ascii_only_well_formed; reflexivity].
  apply Utf8Facts.ascii_only_well_formed. unfold number.
  destruct (timestamp <? 0); [rewrite append_String, append_empty_l; cbn |];
    apply JsonFacts.uint_ascii.
Qed.

Lemma number_head n :
  exists x r, number n = String x r
              /\ (is_digit x = true \/ x = "-"%char).
Proof.
  unfold number. destruct (n <? 0).
  - eexists _, _. rewrite append_String, append_empty_l. eauto.
  - unfold JsNum.decimal.
    pose proof (JsonFacts.to_uint_normal (Z.to_N n)) as Hnorm.
    destruct (N.to_uint (Z.to_N n)); [discriminate Hnorm | ..];
      cbn [NilEmpty.string_of_uint]; eexists _, _; split;
      try reflexivity; left; reflexivity.
Qed.

Lemma value_number fuel n t :
  value (S fuel) (number n +:+ String "}" t)
  = Some (Number n 0, String "}" t).
Proof.
  rewrite <- (JsonFacts.parse_integer n "}" t) by reflexivity.
  destruct (number_head n) as (x & r & -> & Hx).
  rewrite append_String. cbn [value].
  destruct Hx as [Hx | ->]; [| reflexivity].
  revert Hx. all_bytes x; intros Hx; try discriminate Hx; reflexivity.
Qed.

Lemma value_string fuel s t :
  value (S fuel) (String dquote (quote_body s +:+ String dquote t))
  = Some (Str s, t).
Proof.
  cbn [value skip_ws]. change (is_ws dquote) with false. cbv iota.
  change (Ascii.eqb dquote "{") with false.
  change (Ascii.eqb dquote "[") with false.
  change (Ascii.eqb dquote dquote) with true. cbv iota.
  rewrite JsonFacts.chars_quote_body. reflexivity.
Qed.

Lemma members_key v fuel k t :
  members v (S fuel) (String dquote (quote_body k +:+ String dquote (String ":" t)))
  = match v t with
    | Some (x, r3) =>
        match skip_ws r3 with
        | String "," r4 =>
            match members v fuel r4 with
            | Some (ms, r5) => Some ((k, x) :: ms, r5)
            | None => None
            end
        | String "}" r4 => Some ([(k, x)], r4)
        | _ => None
        end
    | None => None
    end.
Proof.
  cbn [members skip_ws]. change (is_ws dquote) with false. cbv iota.
  change (Ascii.eqb dquote dquote) with true. cbv iota.
  rewrite JsonFacts.chars_quote_body. reflexivity.
Qed.

(** Parsing the state text gives the object that was printed. *)
Lemma parse_state_json userId timestamp :
  parse (state_json userId timestamp)
  = Some (Obj [("userId", Str userId); ("timestamp", Number timestamp 0)]).
Proof.
  unfold parse. rewrite state_json_shape.
  set (rest := String dquote ("userId" +:+ _)).
  cbn [String.length].
  destruct (String.length rest) as [| [| fuel]] eqn:Hlen;
    [discriminate Hlen | discriminate Hlen |].
  unfold rest.
  change (value (S (S (S (S fuel)))) (String "{" (String dquote ?t)))
    with (match members (value (S (S (S fuel)))) (S (S (S fuel)))
                  (String dquote t) with
          | Some (ms, r') => Some (Obj ms, r')
          | None => None
          end).
  change ("userId" +:+ ?t) with (quote_body "userId" +:+ t).
  rewrite members_key, value_string.
  change (skip_ws (String "," ?t)) with (String "," t). cbv iota.
  change ("timestamp" +:+ ?t) with (quote_body "timestamp" +:+ t).
  rewrite members_key, value_number. reflexivity.
Qed.

End StateFacts.

(** C10. For every user identifier that is a non-empty text, the state
    the [/auth-url] route builds from it and the current time, a time
    value, decodes in the [/callback] route to an object whose [userId]
    member is that identifier, which passes the route's test for a
    missing user id. *)
Theorem oauth_state_round_trip (userId : string) (timestamp : Z) :
  Utf8.well_formed userId ->
  userId <> EmptyString ->
  Z.abs timestamp <= Js.max_time_value ->
  exists decoded,
    OAuth.decode_state (OAuth.make_state userId timestamp) = Some decoded
    /\ Json.member "userId" decoded = Some (Json.Str userId)
    /\ Json.truthy (Json.member "userId" decoded) = true.
Proof.
  intros Hwf Hne _. eexists. split; [| split].
  - unfold OAuth.decode_state, OAuth.make_state, Buffer.from_base64, Buffer.toString,
      Buffer.toString_base64, Buffer.from.
    rewrite Base64Facts.decode_encode.
    rewrite (Utf8Facts.decode_well_formed _
               (StateFacts.state_json_well_formed userId timestamp Hwf)).
    apply StateFacts.parse_state_json.
  - reflexivity.
  - cbn. destruct userId; [contradiction | reflexivity].
Qed.

Lemma oauth_state_round_trip_witness :
  exists decoded,
    OAuth.decode_state (OAuth.make_state "65f0c0ffee" 1700000000000) = Some decoded
    /\ Json.member "userId" decoded = Some (Json.Str "65f0c0ffee").
Proof.
  destruct (oauth_state_round_trip "65f0c0ffee" 1700000000000
              ltac:(apply Utf8Facts.ascii_only_well_formed; reflexivity)
              ltac:(discriminate) ltac:(vm_compute; discriminate))
    as (decoded & Hd & Hm & _).
  exists decoded. split; assumption.
Defined.

(** ** Further properties of the service module and the route helper *)

Section Probes.
Variables (env : Env) (config : Config).

Local Arguments SpApi.getMarketplaceId : simpl never.
Local Arguments SpApi.getBaseUrl : simpl never.
Local Arguments Z.mul : simpl never.
Local Arguments Z.add : simpl never.
Local Arguments Z.sub : simpl never.

(** X1. The access check never throws: whatever the order endpoint does
    and whatever the configuration, it returns a boolean after at most
    one request, and the boolean is true exactly when that one request
    went out and was answered. *)
Theorem access_check_absorbs_failures accessToken w :
  exists ok dt traffic,
    run env (SpApi.checkOrdersApiAccess config accessToken) w
    = (Returned ok, after w dt traffic)
    /\ (length traffic <= 1)%nat
    /\ (ok = true <-> exists e, traffic = [e] /\ failure e = None).
Proof.
  unfold SpApi.checkOrdersApiAccess. rewrite run_try_catch, run_bind.
  destruct (Pipeline.getBaseUrl_cases config) as [[base Hb] | [e Hb]];
    rewrite Hb; cbn.
  - unfold logged. cbn.
    match goal with
    | |- context [reply env (log w) ?q] =>
        set (req := q); destruct (reply env (log w) req) as [d | err] eqn:Hr
    end; cbn.
    + exists true, (elapsed env (log w) req),
        [ {| request := req; failure := None |} ].
      split; [reflexivity |]. split; [cbn; lia |].
      split; [eauto | reflexivity].
    + exists false, (elapsed env (log w) req),
        [ {| request := req; failure := Some err |} ].
      split; [reflexivity |]. split; [cbn; lia |].
      split; [discriminate |]. intros (e & [= <-] & He). discriminate He.
  - exists false, 0, []. rewrite after_nothing.
    split; [reflexivity |]. split; [cbn; lia |].
    split; [discriminate |]. intros (e' & He & _). discriminate He.
Qed.

(** X2. The marketplace-participation probe never throws either: it
    returns after at most one request, reports access exactly when that
    request was answered, and counts no marketplaces when it was not. *)
Theorem seller_probe_absorbs_failures accessToken w :
  exists n ok dt traffic,
    run env (SpApi.getSellerProfile config accessToken) w
    = (Returned (n, ok), after w dt traffic)
    /\ (length traffic <= 1)%nat
    /\ (ok = true <-> exists e, traffic = [e] /\ failure e = None)
    /\ (ok = false -> n = 0%nat).
Proof.
  unfold SpApi.getSellerProfile. rewrite run_try_catch, run_bind.
  destruct (Pipeline.getBaseUrl_cases config) as [[base Hb] | [e Hb]];
    rewrite Hb; cbn.
  - unfold logged. cbn.
    match goal with
    | |- context [reply env (log w) ?q] =>
        set (req := q); destruct (reply env (log w) req) as [d | err] eqn:Hr
    end; cbn.
    + exists (default 0%nat d), true, (elapsed env (log w) req),
        [ {| request := req; failure := None |} ].
      split; [reflexivity |]. split; [cbn; lia |].
      split; [split; eauto | discriminate].
    + exists 0%nat, false, (elapsed env (log w) req),
        [ {| request := req; failure := Some err |} ].
      split; [reflexivity |]. split; [cbn; lia |].
      split; [| reflexivity].
      split; [discriminate |]. intros (e & [= <-] & He). discriminate He.
  - exists 0%nat, false, 0, []. rewrite after_nothing.
    split; [reflexivity |]. split; [cbn; lia |].
    split; [| reflexivity].
    split; [discriminate |]. intros (e' & He & _). discriminate He.
Qed.


End Probes.

(** X4. The synthetic-order generator ends for every sequence of draws
    and every host zone: with between 5 and 24 records, each with a
    status of its list, or with the range error of a date outside the
    time values. It awaits nothing, sends nothing but its draws, and no
    time passes. *)
Theorem mock_data_always_ends env w :
  exists r extra,
    run env SpApi.generateMockOrderData w = (r, after w 0 extra)
    /\ Forall draw extra
    /\ (r = Thrown SpApi.RangeError
        \/ exists l, r = Returned l
                     /\ (5 <= length l <= 24)%nat
                     /\ Forall SpApi.has_status l).
Proof.
  destruct (MockFacts.generate_run env w)
    as (r & extra & Hrun & Hdraws & Hend & Hshape & Hrange & _).
  exists r, extra. split; [assumption |]. split; [assumption |].
  destruct r as [l | e |]; [| | contradiction].
  - right. exists l. split; [reflexivity |]. apply Hshape. reflexivity.
  - left. rewrite (Hrange e eq_refl). reflexivity.
Qed.

(** X5. [Math.floor(Math.random() * n)] is an index below [n] for every
    draw, although the product is rounded to a double before the floor:
    for [n] up to 32, which covers the 20, 30 and 4 of the generator. *)
Theorem random_index_in_range k n :
  0 <= k < JsNum.random_scale -> 0 < n <= 32 ->
  0 <= JsNum.floor_times k n < n.
Proof.
  intros Hk Hn.
  pose proof (MockFacts.floor_times_range k n Hn) as H.
  rewrite Z.mod_small in H by assumption. exact H.
Qed.

Lemma random_index_in_range_witness :
  0 <= JsNum.floor_times 5104079577686562 30 < 30.
Proof.
  apply (random_index_in_range 5104079577686562 30);
    [vm_compute; split; [discriminate | reflexivity] | lia].
Defined.

(** X6. [date.setDate(date.getDate() - k)] moves a local time back by
    exactly [k] days of 24 hours, across the ends of months and years,
    for every time and every [k]. *)
Theorem set_date_moves_whole_days t k :
  JsDate.with_date t (JsDate.DateFromTime t - k) = t - k * JsDate.ms_per_day.
Proof. apply DateFacts.with_date_back. Qed.

(** X7. The day the generator prints, [toISOString().split("T")[0]], is
    read back by [new Date] as midnight UTC of that day, for every time
    from 1970 to the end of year 9999. *)
Theorem printed_date_parses_back t :
  0 <= t < 253402300800000 ->
  JsDate.parse (JsDate.toISODate t)
  = Some (t / JsDate.ms_per_day * JsDate.ms_per_day).
Proof. apply DateFacts.parse_toISODate. Qed.

Lemma printed_date_parses_back_witness :
  JsDate.parse (JsDate.toISODate 1731285000000) = Some 1731283200000.
Proof.
  apply (printed_date_parses_back 1731285000000). lia.
Defined.

(** X8. [ensureValidAccessToken] on a user without a linked credential,
    or with one that has no access token, throws "Amazon account not
    connected" before anything is requested or written. *)
Theorem not_connected_throws_first env config w user doc :
  docs w !! user = Some doc ->
  (amazonAuth doc = None
   \/ exists a, amazonAuth doc = Some a /\ Js.truthy (accessToken a) = false) ->
  run env (Routes.ensureValidAccessToken config user) w
  = (Thrown (Js.new_Error "Amazon account not connected"), w).
Proof.
  intros Hdoc Hauth.
  unfold Routes.ensureValidAccessToken, Routes.read_auth.
  cbn. rewrite Hdoc. cbn.
  destruct Hauth as [-> | (a & -> & Htok)]; cbn; [reflexivity |].
  rewrite Htok. reflexivity.
Qed.

Lemma not_connected_throws_first_witness :
  run (Scenario.token_env Scenario.fresh_tokens)
      (Routes.ensureValidAccessToken Scenario.config 0%nat)
      Scenario.unlinked_world
  = (Thrown (Js.new_Error "Amazon account not connected"),
     Scenario.unlinked_world).
Proof.
  apply (not_connected_throws_first (Scenario.token_env Scenario.fresh_tokens)
           Scenario.config Scenario.unlinked_world 0%nat Scenario.newcomer).
  - vm_compute. reflexivity.
  - left. reflexivity.
Defined.

(** X9. A credential that is due for refresh but holds no refresh token
    makes [ensureValidAccessToken] throw "No refresh token available"
    without a refresh call and without touching the credential. *)
Theorem stale_without_refresh_token env config w user doc a :
  docs w !! user = Some doc ->
  amazonAuth doc = Some a ->
  Js.truthy (accessToken a) = true ->
  Routes.expiring (clock w) (tokenExpiresAt a) = true ->
  Js.truthy (refreshToken a) = false ->
  run env (Routes.ensureValidAccessToken config user) w
  = (Thrown (Js.new_Error
               "No refresh token available. Please reconnect your Amazon account."),
     w).
Proof.
  intros Hdoc Hauth Htok Hstale Hrefresh.
  unfold Routes.ensureValidAccessToken, Routes.read_auth.
  cbn. rewrite Hdoc. cbn. rewrite Hauth. cbn. rewrite Htok. cbn.
  rewrite Hstale, Hrefresh. reflexivity.
Qed.

Lemma stale_without_refresh_token_witness :
  run (Scenario.token_env Scenario.fresh_tokens)
      (Routes.ensureValidAccessToken Scenario.config 0%nat)
      (Scenario.no_refresh_world 60000)
  = (Thrown (Js.new_Error
               "No refresh token available. Please reconnect your Amazon account."),
     Scenario.no_refresh_world 60000).
Proof.
  apply (stale_without_refresh_token (Scenario.token_env Scenario.fresh_tokens)
           Scenario.config (Scenario.no_refresh_world 60000) 0%nat
           {| user_id := "65f0c0ffee";
              amazonAuth := Some (Routes.with_refreshToken None
                                    (Scenario.credential 60000)) |}
           (Routes.with_refreshToken None (Scenario.credential 60000)));
    vm_compute; reflexivity.
Defined.

(** X10. When the token endpoint rejects the refresh,
    [ensureValidAccessToken] throws "Failed to refresh access token: "
    followed by the endpoint's error description, or by the error's
    message when there is none; the credential is left as it was, in
    memory and in the database, and the refresh call is the only request
    made: nothing is saved. *)
Theorem refresh_rejected_leaves_credential env config w user doc a e r w' :
  docs w !! user = Some doc ->
  amazonAuth doc = Some a ->
  Js.truthy (accessToken a) = true ->
  Routes.expiring (clock w) (tokenExpiresAt a) = true ->
  Js.truthy (refreshToken a) = true ->
  SpApi.missing_keys config = [] ->
  reply env (log w) (Routes.refresh_request config a) = Js.Rejected e ->
  run env (Routes.ensureValidAccessToken config user) w = (r, w') ->
  r = Thrown (Js.new_Error
                ("Failed to refresh access token: "
                   +:+ Js.or_else (Js.response e ≫= Js.error_description)
                                  (Js.message e)))
  /\ docs w' = docs w
  /\ db w' = db w
  /\ log w' = log w ++ [ {| request := Routes.refresh_request config a;
                            failure := Some e |} ].
Proof.
  intros Hdoc Hauth Htok Hstale Hrefresh Hconf Hreply Hrun.
  pose proof (ensure_refresh_path config env w user doc a
                Hdoc Hauth Htok Hstale Hrefresh Hconf) as Hpath.
  cbn zeta in Hpath. rewrite Hreply, Hrun in Hpath.
  injection Hpath as -> ->. cbn. repeat split; reflexivity.
Qed.

Lemma refresh_rejected_leaves_credential_witness :
  fst (run Scenario.refusing_env
         (Routes.ensureValidAccessToken Scenario.config 0%nat)
         (Scenario.world 60000))
  = Thrown (Js.new_Error
              "Failed to refresh access token: The request has an invalid grant parameter").
Proof.
  set (out := run _ _ _).
  apply (refresh_rejected_leaves_credential Scenario.refusing_env
           Scenario.config (Scenario.world 60000) 0%nat
           (Scenario.seller 60000) (Scenario.credential 60000)
           Scenario.invalid_grant (fst out) (snd out)
           ltac:(vm_compute; reflexivity) ltac:(reflexivity)
           ltac:(reflexivity) ltac:(vm_compute; reflexivity)
           ltac:(reflexivity) ltac:(reflexivity) ltac:(reflexivity)
           ltac:(apply surjective_pairing)).
Defined.

(** X11. When the token endpoint answers but saving the user fails,
    [ensureValidAccessToken] throws the error of the save: the database
    keeps the old credential, while the user object in memory already
    carries the new access token. *)
Theorem save_failure_not_persisted env config w user doc a td e r w' :
  docs w !! user = Some doc ->
  amazonAuth doc = Some a ->
  Js.truthy (accessToken a) = true ->
  Routes.expiring (clock w) (tokenExpiresAt a) = true ->
  Js.truthy (refreshToken a) = true ->
  SpApi.missing_keys config = [] ->
  reply env (log w) (Routes.refresh_request config a) = Js.Resolved td ->
  reply env (log w ++ [ {| request := Routes.refresh_request config a;
                           failure := None |} ]) (Save user) = Some e ->
  run env (Routes.ensureValidAccessToken config user) w = (r, w') ->
  r = Thrown e
  /\ db w' = db w
  /\ exists a', docs w' !! user
                = Some {| user_id := user_id doc; amazonAuth := Some a' |}
                /\ accessToken a' = access_token td.
Proof.
  intros Hdoc Hauth Htok Hstale Hrefresh Hconf Hreply Hsave Hrun.
  pose proof (ensure_refresh_path config env w user doc a
                Hdoc Hauth Htok Hstale Hrefresh Hconf) as Hpath.
  cbn zeta in Hpath. rewrite Hreply, Hsave, Hrun in Hpath.
  injection Hpath as -> ->. cbn.
  split; [reflexivity |]. split; [reflexivity |].
  eexists. rewrite lookup_insert_eq. split; reflexivity.
Qed.

Lemma save_failure_not_persisted_witness :
  let out := run Scenario.failing_store
               (Routes.ensureValidAccessToken Scenario.config 0%nat)
               (Scenario.world 60000) in
  fst out = Thrown Scenario.write_error
  /\ db (snd out) = db (Scenario.world 60000).
Proof.
  intros out.
  destruct (save_failure_not_persisted Scenario.failing_store
              Scenario.config (Scenario.world 60000) 0%nat
              (Scenario.seller 60000) (Scenario.credential 60000)
              Scenario.fresh_tokens Scenario.write_error (fst out) (snd out)
              ltac:(vm_compute; reflexivity) ltac:(reflexivity)
              ltac:(reflexivity) ltac:(vm_compute; reflexivity)
              ltac:(reflexivity) ltac:(reflexivity) ltac:(reflexivity)
              ltac:(reflexivity) ltac:(apply surjective_pairing))
    as (Hr & Hdb & _).
  split; assumption.
Defined.

(** X12. Without an access token neither [getRecentOrders] nor
    [getOrderCount] requests anything: each throws its own "Failed to
    ...: Access token is required", the inner error having passed
    through the function's own catch block. *)
Theorem missing_access_token_is_reported env config accessToken sellerId w :
  Js.truthy accessToken = false ->
  run env (SpApi.getRecentOrders config accessToken sellerId) w
  = (Thrown (Js.new_Error
               "Failed to get recent orders: Access token is required"), w)
  /\ run env (SpApi.getOrderCount config accessToken sellerId) w
     = (Thrown (Js.new_Error
                  "Failed to get order count: Access token is required"), w).
Proof.
  intros Htok.
  unfold SpApi.getRecentOrders, SpApi.getOrderCount,
    SpApi.recent_orders_body, SpApi.order_count_body.
  rewrite Htok. split; reflexivity.
Qed.

Lemma missing_access_token_is_reported_witness :
  run Scenario.busy_seller
      (SpApi.getOrderCount Scenario.config None Scenario.sellerId)
      (Scenario.world 600000)
  = (Thrown (Js.new_Error
               "Failed to get order count: Access token is required"),
     Scenario.world 600000).
Proof.
  apply (proj2 (missing_access_token_is_reported Scenario.busy_seller
                  Scenario.config None Scenario.sellerId
                  (Scenario.world 600000) eq_refl)).
Defined.

(** X13. With a configuration key missing [exchangeCode] requests
    nothing: it throws "Failed to exchange authorization code: " followed
    by the configuration error that names the missing keys. *)
Theorem exchange_needs_configuration env config code w :
  SpApi.missing_keys config <> [] ->
  run env (SpApi.exchangeCode config code) w
  = (Thrown (Js.new_Error
               ("Failed to exchange authorization code: "
                  +:+ ("Missing required Amazon SP API configuration: "
                         +:+ SpApi.join ", " (SpApi.missing_keys config)))),
     w).
Proof.
  intros Hmissing. unfold SpApi.exchangeCode, SpApi.validateConfig.
  destruct (SpApi.missing_keys config) as [| k ks]; [contradiction |].
  reflexivity.
Qed.

Lemma exchange_needs_configuration_witness :
  run Scenario.refusing_env (SpApi.exchangeCode Scenario.half_config "ANcode")
      (Scenario.world 600000)
  = (Thrown (Js.new_Error
               "Failed to exchange authorization code: Missing required Amazon SP API configuration: clientSecret"),
     Scenario.world 600000).
Proof.
  apply (exchange_needs_configuration Scenario.refusing_env
           Scenario.half_config "ANcode" (Scenario.world 600000)).
  discriminate.
Defined.

(** X14. With a complete configuration [exchangeCode] makes exactly one
    token request, for the authorization-code grant with the given code
    and the configured redirect URI; it returns the tokens the endpoint
    answers with, and on a rejection throws "Failed to exchange
    authorization code: " followed by the endpoint's error description,
    or by the error's message when there is none. *)
Theorem exchange_one_request env config code w :
  SpApi.missing_keys config = [] ->
  let q := PostToken
             {| grant := AuthorizationCode code
                           (Js.interpolate (redirectUri config));
                client_id := Js.interpolate (clientId config);
                client_secret := Js.interpolate (clientSecret config) |} in
  run env (SpApi.exchangeCode config code) w
  = match reply env (log w) q with
    | Js.Resolved td =>
        (Returned td,
         after w (elapsed env (log w) q) [ {| request := q; failure := None |} ])
    | Js.Rejected e =>
        (Thrown (Js.new_Error
                   ("Failed to exchange authorization code: "
                      +:+ Js.or_else (Js.response e ≫= Js.error_description)
                                     (Js.message e))),
         after w (elapsed env (log w) q)
           [ {| request := q; failure := Some e |} ])
    end.
Proof.
  intros Hconf q. unfold SpApi.exchangeCode, SpApi.validateConfig.
  rewrite Hconf. cbn. unfold logged. cbn. fold q.
  destruct (reply env (log w) q); reflexivity.
Qed.

Lemma exchange_one_request_witness :
  fst (run Scenario.refusing_env (SpApi.exchangeCode Scenario.config "ANcode")
         (Scenario.world 600000))
  = Thrown (Js.new_Error
              "Failed to exchange authorization code: The request has an invalid grant parameter").
Proof.
  rewrite (exchange_one_request Scenario.refusing_env Scenario.config "ANcode"
             (Scenario.world 600000) eq_refl).
  reflexivity.
Defined.

(** X15. The order date of a formatted order is the day part of the
    upstream purchase date: for a purchase date that reads
    [day ++ "T" ++ rest] with no T in [day], it is [day]. *)
Theorem order_date_is_day_part order day rest :
  SpApi.before_T day = day ->
  PurchaseDate order = Some (day +:+ "T" +:+ rest) ->
  orderDate (SpApi.formatOrder order) = day.
Proof.
  intros Hday Hdate. unfold SpApi.formatOrder. cbn [orderDate].
  rewrite Hdate. cbn [Js.interpolate].
  assert (Js.truthy (Some (day +:+ "T" +:+ rest)) = true) as ->
      by (destruct day; reflexivity).
  clear Hdate. induction day as [| c day IH]; [reflexivity |].
  rewrite append_String. cbn [SpApi.before_T] in *.
  destruct (Ascii.eqb c "T"); [discriminate Hday |].
  f_equal. apply IH. congruence.
Qed.

Lemma order_date_is_day_part_witness :
  orderDate (SpApi.formatOrder Scenario.sample_order) = "2023-11-10".
Proof.
  apply (order_date_is_day_part Scenario.sample_order "2023-11-10" "08:15:30Z");
    reflexivity.
Defined.

(** X16. Without an access token the restricted-data-token step
    requests nothing and returns an absent token. *)
Theorem restricted_token_requires_access_token env config accessToken w :
  Js.truthy accessToken = false ->
  run env (SpApi.getRestrictedDataToken config accessToken) w
  = (Returned None, w).
Proof.
  intros Htok. unfold SpApi.getRestrictedDataToken. rewrite Htok. reflexivity.
Qed.

Lemma restricted_token_requires_access_token_witness :
  run Scenario.busy_seller
      (SpApi.getRestrictedDataToken Scenario.config (Some ""))
      (Scenario.world 600000)
  = (Returned None, Scenario.world 600000).
Proof.
  apply (restricted_token_requires_access_token Scenario.busy_seller
           Scenario.config (Some "") (Scenario.world 600000)).
  reflexivity.
Defined.

(** X17. With a complete configuration and no refresh token
    [refreshAccessToken] requests nothing and throws "Failed to refresh
    access token: Refresh token is required": its own error, wrapped by
    its own catch block. *)
Theorem refresh_requires_refresh_token env config refreshToken w :
  SpApi.missing_keys config = [] ->
  Js.truthy refreshToken = false ->
  run env (SpApi.refreshAccessToken config refreshToken) w
  = (Thrown (Js.new_Error
               "Failed to refresh access token: Refresh token is required"),
     w).
Proof.
  intros Hconf Htok. unfold SpApi.refreshAccessToken, SpApi.validateConfig.
  rewrite Hconf, Htok. reflexivity.
Qed.

Lemma refresh_requires_refresh_token_witness :
  run (Scenario.token_env Scenario.fresh_tokens)
      (SpApi.refreshAccessToken Scenario.config None) (Scenario.world 60000)
  = (Thrown (Js.new_Error
               "Failed to refresh access token: Refresh token is required"),
     Scenario.world 60000).
Proof.
  apply (refresh_requires_refresh_token
           (Scenario.token_env Scenario.fresh_tokens) Scenario.config None
           (Scenario.world 60000)); reflexivity.
Defined.

(** X18. The text the [/callback] route hands to [JSON.parse] is,
    character for character, the JSON text the [/auth-url] route
    printed: the base64 step loses nothing for any bytes, and the
    decoder reads well-formed UTF-8 as it is. *)
Theorem state_text_survives_base64 userId timestamp :
  Utf8.well_formed userId ->
  Buffer.toString (Buffer.from_base64 (OAuth.make_state userId timestamp))
  = OAuth.state_json userId timestamp.
Proof.
  intros Hwf.
  unfold OAuth.make_state, Buffer.from_base64, Buffer.toString,
    Buffer.toString_base64, Buffer.from.
  rewrite Base64Facts.decode_encode.
  apply Utf8Facts.decode_well_formed, StateFacts.state_json_well_formed.
  assumption.
Qed.

Lemma state_text_survives_base64_witness :
  Buffer.toString
    (Buffer.from_base64 (OAuth.make_state "65f0c0ffee" 1700000000000))
  = OAuth.state_json "65f0c0ffee" 1700000000000.
Proof.
  apply (state_text_survives_base64 "65f0c0ffee" 1700000000000).
  apply Utf8Facts.ascii_only_well_formed. reflexivity.
Defined.
